(** * Load lifecycle and bid resolution of the SwiftLoad board (app.py)

    A shallow embedding of the four request handlers of [app.py] that
    write to the [loads] and [bids] tables -- [place_bid], [accept_bid],
    [reject_bid] and [update_status] -- together with the session
    decorators and the SQL statements they issue, followed by the
    properties of the load lifecycle and of bid resolution.  The
    handlers for accounts, posting and saving loads ([register],
    [login], [logout], [new_load], [save_load]) come after them.

    Tables are finite maps from the [INTEGER PRIMARY KEY] to the row,
    text columns are strings, [REAL] columns are IEEE-754 values
    ([spec_float]), nullable columns are options.  A handler runs on a
    connection that holds the committed database and the uncommitted
    working copy; [db.commit()] publishes the working copy and closing
    the connection drops it. *)

From Stdlib Require Import SpecFloat.
From stdpp Require Import gmap strings list fin_maps.

Open Scope string_scope.

(** ** Rows and tables *)

(** The descriptive columns of [loads]; no handler below reads or writes
    them. *)
Record load_info := LoadInfo {
  title : string;
  pickup_city : string;
  delivery_city : string;
  rate : option spec_float;
  notes : option string
}.

(** A row of [loads].  [l_status] obeys the [CHECK] of the schema on
    every write the handlers make; [l_trucker_id] is the nullable
    [trucker_id] column. *)
Record load_row := LoadRow {
  l_shipper_id : nat;
  l_info : load_info;
  l_status : string;
  l_trucker_id : option nat
}.

(** A row of [bids]; [load_id], [trucker_id] and [amount] are
    [NOT NULL]. *)
Record bid_row := BidRow {
  b_load_id : nat;
  b_trucker_id : nat;
  b_amount : spec_float;
  b_message : option string;
  b_status : string
}.

(** The two tables, and the [sqlite_sequence] entry that
    [AUTOINCREMENT] keeps for [bids]. *)
Record db := Db {
  loads : gmap nat load_row;
  bids : gmap nat bid_row;
  bids_seq : nat
}.

(** ** Session *)

(** The Flask session: the keys ["user_id"] and ["role"], each present
    or not. *)
Record session := Session {
  user_id : option nat;
  role : option string
}.

(** ** Responses *)

Inductive error :=
  | IntegrityError
  | OverflowError.

Inductive response :=
  | RedirectLogin
  | RedirectViewLoad (load_id : nat) (flash : string)
  | Abort (code : nat)
  | Unhandled (e : error).

(** ** Connections and the request monad *)

Record conn := Conn {
  committed : db;
  working : db
}.

(** [get_db]: a fresh connection sees the committed database.  The
    connection is opened without [PRAGMA foreign_keys=ON] (only the
    script of [init_db] issues it, on its own connection), so foreign
    keys are not enforced on it. *)
Definition get_db (d : db) : conn := Conn d d.

(** A computation either returns a value or leaves the handler with a
    response ([abort], an unhandled exception). *)
Inductive result (A : Type) :=
  | Return (a : A)
  | Escape (r : response).
Arguments Return {A} a.
Arguments Escape {A} r.

Definition Req (A : Type) : Type := conn -> result A * conn.

#[global] Instance req_ret : MRet Req := fun A a c => (Return a, c).

#[global] Instance req_bind : MBind Req := fun A B k m c =>
  match m c with
  | (Return a, c') => k a c'
  | (Escape r, c') => (Escape r, c')
  end.

Definition abort {A} (code : nat) : Req A := fun c => (Escape (Abort code), c).
Definition raise {A} (e : error) : Req A := fun c => (Escape (Unhandled e), c).

(** [db.execute] of a query: reads the working copy. *)
Definition query {A} (q : db -> A) : Req A := fun c => (Return (q (working c)), c).

(** [db.execute] of a statement that writes: changes the working copy. *)
Definition execute (u : db -> db) : Req unit :=
  fun c => (Return tt, Conn (committed c) (u (working c))).

(** [db.commit()]. *)
Definition commit : Req unit :=
  fun c => (Return tt, Conn (working c) (working c)).

(** One request: open the connection, run the handler, close the
    connection ([close_db]); what was not committed is lost. *)
Definition serve (h : Req response) (d : db) : response * db :=
  match h (get_db d) with
  | (Return r, c) => (r, committed c)
  | (Escape r, c) => (r, committed c)
  end.

(** ** Decorators *)

(** [login_required]: without ["user_id"] in the session the request is
    redirected to the login page; otherwise the handler runs (and can
    read [session["user_id"]]). *)
Definition login_required (s : session) (f : nat -> Req response) : Req response :=
  match user_id s with
  | None => mret RedirectLogin
  | Some uid => f uid
  end.

(** [role_required] with its [roles]: as [login_required], then 403 unless the
    session role is one of [roles] or ["admin"]. *)
Definition role_required (roles : list string) (s : session)
    (f : nat -> Req response) : Req response :=
  match user_id s with
  | None => mret RedirectLogin
  | Some uid =>
      if bool_decide (role s ∉ Some <$> roles) && bool_decide (role s ≠ Some "admin")
      then abort 403
      else f uid
  end.

(** ** Utilities *)

(** [sanitize_numeric(val, default)]; [val] stands for the outcome of
    [float(val)], [None] when [float] raises. *)
Definition sanitize_numeric (val default : option spec_float) : option spec_float :=
  match val with
  | Some x => Some x
  | None => default
  end.

(** [amt <= 0] on floats. *)
Definition le_zero (amt : spec_float) : bool := SFleb amt (S754_zero false).

Definition is_nan (amt : spec_float) : bool :=
  match amt with S754_nan => true | _ => false end.

(** The integers SQLite stores and binds are signed and 64 bits wide.
    An id from the URL ([<int:load_id>], [<int:bid_id>]) is a Python
    integer of any size; one of [2^63] or more cannot be bound to a
    statement, and [db.execute] raises [OverflowError].  The ids in the
    session and in stored rows were written by SQLite and are in
    range. *)
Definition sqlite_int (n : nat) : bool := (N.of_nat n <? 2 ^ 63)%N.

(** ** SQL statements *)

Definition set_bid_status (st : string) (b : bid_row) : bid_row :=
  BidRow (b_load_id b) (b_trucker_id b) (b_amount b) (b_message b) st.

Definition set_load_status (st : string) (l : load_row) : load_row :=
  LoadRow (l_shipper_id l) (l_info l) st (l_trucker_id l).

Definition set_load_assigned (trucker : nat) (l : load_row) : load_row :=
  LoadRow (l_shipper_id l) (l_info l) "assigned" (Some trucker).

(** [db.execute] of a [SELECT] with the URL id [id] among its
    parameters, then [fetchone()]; [rows] is the row the statement
    yields once its parameters are bound.  Binding an [id] that is out
    of range raises [OverflowError].  No stored row has an id out of
    range, so such an [id] matches nothing: the statement returns the
    row it finds, and when it finds none it raises if [id] is out of
    range and returns [None] otherwise. *)
Definition select_by {A} (id : nat) (rows : db -> option A) : Req (option A) :=
  fun c =>
    match rows (working c) with
    | Some r => (Return (Some r), c)
    | None =>
        if sqlite_int id then (Return None, c)
        else (Escape (Unhandled OverflowError), c)
    end.

(** The row of [bids] with this id, joined with the poster of its
    load. *)
Definition lookup_bid_join (bid_id : nat) (d : db) : option (bid_row * nat) :=
  b ← bids d !! bid_id;
  l ← loads d !! b_load_id b;
  Some (b, l_shipper_id l).

(** [SELECT b.*, l.shipper_id FROM bids b JOIN loads l ON l.id=b.load_id
    WHERE b.id=?], [fetchone()]. *)
Definition select_bid_join (bid_id : nat) : Req (option (bid_row * nat)) :=
  select_by bid_id (lookup_bid_join bid_id).

(** The poster of the load with this id. *)
Definition lookup_shipper (load_id : nat) (d : db) : option nat :=
  l_shipper_id <$> loads d !! load_id.

(** [SELECT shipper_id FROM loads WHERE id=?], [fetchone()]. *)
Definition select_shipper (load_id : nat) : Req (option nat) :=
  select_by load_id (lookup_shipper load_id).

(** The [WHERE] clause [load_id=? AND trucker_id=? AND status='pending']. *)
Definition pending_of (load_id trucker_id : nat) (b : bid_row) : Prop :=
  b_load_id b = load_id /\ b_trucker_id b = trucker_id /\ b_status b = "pending".

#[global] Instance pending_of_dec load_id trucker_id b :
  Decision (pending_of load_id trucker_id b).
Proof. unfold pending_of. apply _. Defined.

(** The id of a pending bid of this trucker on this load id, if there
    is one. *)
Definition lookup_pending (load_id trucker_id : nat) (d : db) : option nat :=
  fst <$> head (filter (fun kb => pending_of load_id trucker_id kb.2)
                       (map_to_list (bids d))).

(** [SELECT id FROM bids WHERE load_id=? AND trucker_id=? AND
    status='pending'], [fetchone()]; [load_id] is the id from the
    URL. *)
Definition select_pending (load_id trucker_id : nat) : Req (option nat) :=
  select_by load_id (lookup_pending load_id trucker_id).

(** The row id [AUTOINCREMENT] gives to the next row of [bids]: one more
    than the largest id the table has ever held. *)
Definition next_bid_id (d : db) : nat :=
  S (bids_seq d `max` max_list (map_to_list (bids d)).*1).

(** [INSERT INTO bids(load_id,trucker_id,amount,message) VALUES(?,?,?,?)];
    [status] takes its default ['pending'].  A NaN is bound as NULL,
    which [amount REAL NOT NULL] refuses. *)
Definition insert_bid (load_id trucker_id : nat) (amt : spec_float)
    (msg : option string) : Req unit :=
  if is_nan amt then raise IntegrityError
  else execute (fun d =>
         Db (loads d)
            (<[next_bid_id d := BidRow load_id trucker_id amt msg "pending"]> (bids d))
            (next_bid_id d)).

(** [UPDATE bids SET status=<st> WHERE id=?]. *)
Definition update_bid_status (st : string) (bid_id : nat) : Req unit :=
  execute (fun d => Db (loads d) (alter (set_bid_status st) bid_id (bids d)) (bids_seq d)).

(** [UPDATE bids SET status='rejected' WHERE load_id=? AND id<>?]. *)
Definition reject_other_bids (load_id bid_id : nat) : Req unit :=
  execute (fun d =>
    Db (loads d)
       (map_imap (fun k b =>
          Some (if bool_decide (b_load_id b = load_id) && bool_decide (k ≠ bid_id)
                then set_bid_status "rejected" b else b)) (bids d))
       (bids_seq d)).

(** [UPDATE loads SET status='assigned', trucker_id=? WHERE id=?]. *)
Definition assign_load (trucker load_id : nat) : Req unit :=
  execute (fun d => Db (alter (set_load_assigned trucker) load_id (loads d)) (bids d) (bids_seq d)).

(** [UPDATE loads SET status=? WHERE id=?]. *)
Definition update_load_status (st : string) (load_id : nat) : Req unit :=
  execute (fun d => Db (alter (set_load_status st) load_id (loads d)) (bids d) (bids_seq d)).

(** ** Handlers *)

(** [POST /load/<load_id>/bid]; [amount] and [message] are the form
    fields. *)
Definition place_bid (s : session) (load_id : nat)
    (amount : option spec_float) (message : option string) : Req response :=
  role_required ["trucker"] s (fun uid =>
    let amt := sanitize_numeric amount None in
    match amt with
    | None => mret (RedirectViewLoad load_id "Enter a valid bid amount.")
    | Some a =>
        if le_zero a then mret (RedirectViewLoad load_id "Enter a valid bid amount.")
        else
          existing ← select_pending load_id uid;
          match existing with
          | Some _ =>
              mret (RedirectViewLoad load_id "You already have a pending bid on this load.")
          | None =>
              insert_bid load_id uid a message;;
              commit;;
              mret (RedirectViewLoad load_id "Bid submitted.")
          end
    end).

(** [GET /bid/<bid_id>/accept]. *)
Definition accept_bid (s : session) (bid_id : nat) : Req response :=
  login_required s (fun uid =>
    b ← select_bid_join bid_id;
    match b with
    | None => abort 404
    | Some (b, shipper_id) =>
        if bool_decide (uid ≠ shipper_id) && bool_decide (role s ≠ Some "admin")
        then abort 403
        else
          update_bid_status "accepted" bid_id;;
          reject_other_bids (b_load_id b) bid_id;;
          assign_load (b_trucker_id b) (b_load_id b);;
          commit;;
          mret (RedirectViewLoad (b_load_id b) "Bid accepted and load assigned.")
    end).

(** [GET /bid/<bid_id>/reject]. *)
Definition reject_bid (s : session) (bid_id : nat) : Req response :=
  login_required s (fun uid =>
    b ← select_bid_join bid_id;
    match b with
    | None => abort 404
    | Some (b, shipper_id) =>
        if bool_decide (uid ≠ shipper_id) && bool_decide (role s ≠ Some "admin")
        then abort 403
        else
          update_bid_status "rejected" bid_id;;
          commit;;
          mret (RedirectViewLoad (b_load_id b) "Bid rejected.")
    end).

Definition status_names : list string :=
  ["open"; "assigned"; "in_transit"; "delivered"; "cancelled"].

(** [GET /load/<load_id>/status/<status>]. *)
Definition update_status (s : session) (load_id : nat) (status : string) : Req response :=
  login_required s (fun uid =>
    if bool_decide (status ∉ status_names) then abort 400
    else
      l ← select_shipper load_id;
      match l with
      | None => abort 404
      | Some shipper_id =>
          if bool_decide (uid ≠ shipper_id) && bool_decide (role s ≠ Some "admin")
          then abort 403
          else
            update_load_status status load_id;;
            commit;;
            mret (RedirectViewLoad load_id ("Status updated to " ++ status ++ "."))
      end).

(** ** The engine: requests and runs *)

Inductive request :=
  | PlaceBid (s : session) (load_id : nat) (amount : option spec_float)
             (message : option string)
  | AcceptBid (s : session) (bid_id : nat)
  | RejectBid (s : session) (bid_id : nat)
  | UpdateStatus (s : session) (load_id : nat) (status : string).

Definition handler (r : request) : Req response :=
  match r with
  | PlaceBid s load_id amount message => place_bid s load_id amount message
  | AcceptBid s bid_id => accept_bid s bid_id
  | RejectBid s bid_id => reject_bid s bid_id
  | UpdateStatus s load_id status => update_status s load_id status
  end.

(** The database after serving one request, and after a sequence. *)
Definition step (d : db) (r : request) : db := (serve (handler r) d).2.

Definition run (d : db) (rs : list request) : db := foldl step d rs.

(** ** Predicates of the claims *)

(** The principal of session [s] may resolve bids of, and change, a load
    posted by [shipper]: they are logged in and are the poster or an
    admin. *)
Definition authorized (s : session) (shipper : nat) : Prop :=
  exists uid, user_id s = Some uid /\ (uid = shipper \/ role s = Some "admin").

Definition active_statuses : list string := ["assigned"; "in_transit"; "delivered"].

(** [trucker_id] is set exactly in the statuses assigned, in_transit and
    delivered. *)
Definition assignee_inv_row (l : load_row) : Prop :=
  l_trucker_id l ≠ None <-> l_status l ∈ active_statuses.

Definition assignee_inv (d : db) : Prop :=
  forall id l, loads d !! id = Some l -> assignee_inv_row l.

(** At most one pending bid per (load, trucker). *)
Definition pending_inv (d : db) : Prop :=
  forall i j bi bj,
    bids d !! i = Some bi -> bids d !! j = Some bj ->
    b_status bi = "pending" -> b_status bj = "pending" ->
    b_load_id bi = b_load_id bj -> b_trucker_id bi = b_trucker_id bj ->
    i = j.

(** At most one accepted bid per load, and its trucker is the load's. *)
Definition accepted_inv (d : db) : Prop :=
  (forall i j bi bj,
      bids d !! i = Some bi -> bids d !! j = Some bj ->
      b_status bi = "accepted" -> b_status bj = "accepted" ->
      b_load_id bi = b_load_id bj -> i = j)
  /\ (forall i bi l,
        bids d !! i = Some bi -> b_status bi = "accepted" ->
        loads d !! b_load_id bi = Some l ->
        l_trucker_id l = Some (b_trucker_id bi)).

(** The edge set of the specification, in its words: open, assigned,
    in_transit, delivered in this order, and cancelled from open,
    assigned or in_transit.  [app.py] holds no such table; the
    definition serves to state what [update_status] lets through. *)
Definition allowed_edge (from to : string) : bool :=
  bool_decide ((from, to) ∈ [("open", "assigned"); ("assigned", "in_transit");
                             ("in_transit", "delivered"); ("open", "cancelled");
                             ("assigned", "cancelled"); ("in_transit", "cancelled")]).

(** ** The scenario of the specification

    Load 1 is posted by user 10; truckers 20 and 21 bid 500 and 450. *)

Definition amount_500 : spec_float := S754_finite false 500 0.
Definition amount_450 : spec_float := S754_finite false 450 0.

Definition poster : session := Session (Some 10) (Some "shipper").
Definition bidder_a : session := Session (Some 20) (Some "trucker").
Definition bidder_b : session := Session (Some 21) (Some "trucker").

Definition info_1 : load_info := LoadInfo "Steel coils" "Gary" "Toledo" None None.

Definition bid_a (st : string) : bid_row := BidRow 1 20 amount_500 None st.
Definition bid_b (st : string) : bid_row := BidRow 1 21 amount_450 None st.

(** The load as posted, without bids. *)
Definition db_open : db :=
  Db {[ 1 := LoadRow 10 info_1 "open" None ]} ∅ 0.

(** Both bids placed. *)
Definition db_two_bids : db :=
  Db {[ 1 := LoadRow 10 info_1 "open" None ]}
     {[ 1 := bid_a "pending"; 2 := bid_b "pending" ]} 2.

(** The first bid accepted. *)
Definition db_assigned : db :=
  Db {[ 1 := LoadRow 10 info_1 "assigned" (Some 20) ]}
     {[ 1 := bid_a "accepted"; 2 := bid_b "rejected" ]} 2.

(** The second bid accepted after the first. *)
Definition db_reassigned : db :=
  Db {[ 1 := LoadRow 10 info_1 "assigned" (Some 21) ]}
     {[ 1 := bid_a "rejected"; 2 := bid_b "accepted" ]} 2.

(** The load delivered by trucker 20. *)
Definition db_delivered : db :=
  Db {[ 1 := LoadRow 10 info_1 "delivered" (Some 20) ]}
     {[ 1 := bid_a "accepted"; 2 := bid_b "rejected" ]} 2.

(** ** Further predicates on requests and states *)

(** The session a request arrives with. *)
Definition request_session (r : request) : session :=
  match r with
  | PlaceBid s _ _ _ => s
  | AcceptBid s _ => s
  | RejectBid s _ => s
  | UpdateStatus s _ _ => s
  end.

(** The values the [CHECK] of [bids.status] admits. *)
Definition bid_status_names : list string := ["pending"; "accepted"; "rejected"].

(** Every stored status is one the [CHECK] constraints of the schema
    admit. *)
Definition statuses_valid (d : db) : Prop :=
  (forall k l, loads d !! k = Some l -> l_status l ∈ status_names)
  /\ (forall k b, bids d !! k = Some b -> b_status b ∈ bid_status_names).

(** No row of [bids] has an id above the [sqlite_sequence] entry. *)
Definition bids_seq_inv (d : db) : Prop :=
  forall k b, bids d !! k = Some b -> k <= bids_seq d.

(** ** The rest of the site: accounts, posting and saving loads

    The handlers [register], [login], [logout], [new_load] and
    [save_load] write to [users], [loads] and [saved_loads].  Each
    issues at most one statement and commits it, so they are written
    as functions from the stored state to a reply and the state after
    the request. *)

(** A row of [users]. *)
Record user_row := UserRow {
  u_role : string;
  u_name : string;
  u_email : string;
  u_password_hash : string;
  u_company : option string;
  u_phone : option string;
  u_mc_number : option string
}.

(** The columns of [loads] that [load_info] leaves out, kept under the
    same id. *)
Record load_more := LoadMore {
  pickup_state : option string;
  pickup_date : option string;
  delivery_state : option string;
  delivery_date : option string;
  weight : option spec_float;
  equipment : option string
}.

(** A row of [saved_loads]. *)
Record saved_row := SavedRow {
  sv_user_id : nat;
  sv_load_id : nat
}.

(** The stored state: the two tables of the engine, the remaining
    columns and the [sqlite_sequence] entry of [loads], and the tables
    [users] and [saved_loads] with theirs. *)
Record site := Site {
  engine : db;
  loads_seq : nat;
  loads_more : gmap nat load_more;
  users : gmap nat user_row;
  users_seq : nat;
  saved_loads : gmap nat saved_row;
  saved_loads_seq : nat
}.

(** The row id of the next insert into an [AUTOINCREMENT] table. *)
Definition next_id {A} (seq : nat) (m : gmap nat A) : nat :=
  S (seq `max` max_list (map_to_list m).*1).

Inductive http_method :=
  | GET
  | POST.

Inductive target :=
  | ToHome
  | ToLogin
  | ToLoads
  | ToDashboard
  | ToViewLoad (load_id : nat)
  | ToUrl (url : string).

(** What a handler returns: a rendered page, a redirect (each with the
    message it flashed, if any), an [abort], or an exception nobody
    caught. *)
Inductive reply :=
  | Render (title : string) (flash : option string)
  | RedirectTo (t : target) (flash : option string)
  | Refuse (code : nat)
  | Crash (e : error).

(** [role_required], for a handler with any result type: [to_login] is
    the redirect to the login page, [forbidden] is [abort(403)]. *)
Definition role_required_with {A} (roles : list string) (s : session)
    (to_login forbidden : A) (f : nat -> A) : A :=
  match user_id s with
  | None => to_login
  | Some uid =>
      if bool_decide (role s ∉ Some <$> roles) && bool_decide (role s ≠ Some "admin")
      then forbidden
      else f uid
  end.

(** A [REAL] parameter as SQLite binds it: a NaN is stored as NULL. *)
Definition bind_real (x : option spec_float) : option spec_float :=
  match x with
  | Some a => if is_nan a then None else Some a
  | None => None
  end.

(** *** Posting a load *)

(** The fields of the form of [new_load] as [request.form.get] returns
    them: [None] for a field that was not sent.  [f_weight] and
    [f_rate] stand for the outcome of [float] on the field, [None] when
    [float] raises. *)
Record load_form := LoadForm {
  f_title : option string;
  f_pickup_city : option string;
  f_pickup_state : option string;
  f_pickup_date : option string;
  f_delivery_city : option string;
  f_delivery_state : option string;
  f_delivery_date : option string;
  f_weight : option spec_float;
  f_equipment : option string;
  f_rate : option spec_float;
  f_notes : option string
}.

(** [INSERT INTO loads(shipper_id,title,...,notes) VALUES(...)];
    [status] takes its default ['open'] and [trucker_id] is NULL.
    [title], [pickup_city] and [delivery_city] are [NOT NULL]: [None]
    stands for the [IntegrityError]. *)
Definition insert_load (uid : nat) (f : load_form) (st : site) : option site :=
  match f_title f, f_pickup_city f, f_delivery_city f with
  | Some t, Some pc, Some dc =>
      let id := next_id (loads_seq st) (loads (engine st)) in
      Some (Site
              (Db (<[id := LoadRow uid
                             (LoadInfo t pc dc
                                (bind_real (sanitize_numeric (f_rate f) None))
                                (f_notes f))
                             "open" None]> (loads (engine st)))
                  (bids (engine st)) (bids_seq (engine st)))
              id
              (<[id := LoadMore (f_pickup_state f) (f_pickup_date f)
                         (f_delivery_state f) (f_delivery_date f)
                         (bind_real (sanitize_numeric (f_weight f) None))
                         (f_equipment f)]> (loads_more st))
              (users st) (users_seq st) (saved_loads st) (saved_loads_seq st))
  | _, _, _ => None
  end.

(** [/load/new]; a method other than POST shows the form. *)
Definition new_load (s : session) (method : http_method) (f : load_form) (st : site)
    : reply * site :=
  role_required_with ["shipper"; "admin"] s (RedirectTo ToLogin None, st) (Refuse 403, st)
    (fun uid =>
       match method with
       | POST =>
           match insert_load uid f st with
           | Some st' => (RedirectTo ToLoads (Some "Load posted."), st')
           | None => (Crash IntegrityError, st)
           end
       | GET => (Render "New Load" None, st)
       end).

(** *** Saving a load *)

(** The ids of the rows of [saved_loads] for a user and a load. *)
Definition select_saved (uid load_id : nat) (st : site) : list nat :=
  (filter (fun kr : nat * saved_row => sv_user_id kr.2 = uid /\ sv_load_id kr.2 = load_id)
          (map_to_list (saved_loads st))).*1.

(** [INSERT OR IGNORE INTO saved_loads(user_id,load_id) VALUES(?,?)]
    under [UNIQUE(user_id, load_id)]; [None] stands for the
    [OverflowError] raised when the load id from the URL cannot be
    bound.  A pair that is there is left alone; the row id drawn for
    the ignored row is still recorded in [sqlite_sequence]. *)
Definition insert_or_ignore_saved (uid load_id : nat) (st : site) : option site :=
  if sqlite_int load_id
  then
    let id := next_id (saved_loads_seq st) (saved_loads st) in
    Some (match select_saved uid load_id st with
          | [] =>
              Site (engine st) (loads_seq st) (loads_more st) (users st) (users_seq st)
                   (<[id := SavedRow uid load_id]> (saved_loads st)) id
          | _ :: _ =>
              Site (engine st) (loads_seq st) (loads_more st) (users st) (users_seq st)
                   (saved_loads st) id
          end)
  else None.

(** [/save/<load_id>]: the insert and the commit sit in a [try] whose
    bare [except] flashes "Could not save."; either way the reply is
    the redirect to the page of the load. *)
Definition save_load (s : session) (load_id : nat) (st : site) : reply * site :=
  role_required_with ["trucker"] s (RedirectTo ToLogin None, st) (Refuse 403, st)
    (fun uid =>
       match insert_or_ignore_saved uid load_id st with
       | Some st' => (RedirectTo (ToViewLoad load_id) (Some "Saved."), st')
       | None => (RedirectTo (ToViewLoad load_id) (Some "Could not save."), st)
       end).

(** *** Accounts *)

(** The fields of the form of [register] as the handler holds them
    after reading: [r_name] stripped, [r_email] lowercased and
    stripped, [r_role] with its default ["shipper"], [r_password] with
    its default [""]. *)
Record register_form := RegisterForm {
  r_name : string;
  r_email : string;
  r_role : string;
  r_password : string;
  r_company : option string;
  r_phone : option string;
  r_mc_number : option string
}.

(** Is the character [@] (code 64)? *)
Definition is_at (c : Ascii.ascii) : bool := Ascii.eqb c (Ascii.ascii_of_nat 64).

(** The rest of the match of [[^@]+@[^@]+] once one character other
    than [@] has been read: more of them, then [@], then a character
    other than [@]. *)
Fixpoint local_then_at (s : string) : bool :=
  match s with
  | EmptyString => false
  | String c rest =>
      if is_at c
      then match rest with
           | String c' _ => negb (is_at c')
           | EmptyString => false
           end
      else local_then_at rest
  end.

(** No character of the string is [@]. *)
Fixpoint no_at (s : string) : bool :=
  match s with
  | EmptyString => true
  | String c rest => negb (is_at c) && no_at rest
  end.

(** [re.match(r"[^@]+@[^@]+", email)]: the pattern is matched from the
    start of the string, and the string may go on after the match. *)
Definition email_matches (s : string) : bool :=
  match s with
  | EmptyString => false
  | String c rest => negb (is_at c) && local_then_at rest
  end.

(** Is the byte a continuation byte of UTF-8 ([10xxxxxx])? *)
Definition is_continuation (c : Ascii.ascii) : bool :=
  match c with
  | Ascii.Ascii _ _ _ _ _ _ b6 b7 => b7 && negb b6
  end.

(** [len] of a Python string: the number of its code points.  A string
    is held as its UTF-8 bytes, of which every code point has exactly
    one that is not a continuation byte. *)
Fixpoint py_len (s : string) : nat :=
  match s with
  | EmptyString => 0
  | String c rest => (if is_continuation c then 0 else 1) + py_len rest
  end.

(** The values the [CHECK] of [users.role] admits. *)
Definition role_names : list string := ["shipper"; "trucker"; "admin"].

(** [SELECT * FROM users WHERE email=?], [fetchone()]. *)
Definition select_user_by_email (email : string) (st : site) : option (nat * user_row) :=
  head (filter (fun ku : nat * user_row => u_email ku.2 = email) (map_to_list (users st))).

(** [INSERT INTO users(role,name,email,password_hash,company,phone,
    mc_number) VALUES(...)]; [None] stands for the [IntegrityError]
    raised by the [CHECK] on [role] or by [email UNIQUE]. *)
Definition insert_user (f : register_form) (password_hash : string) (st : site)
    : option site :=
  if bool_decide (r_role f ∈ role_names)
  then match select_user_by_email (r_email f) st with
       | Some _ => None
       | None =>
           let id := next_id (users_seq st) (users st) in
           Some (Site (engine st) (loads_seq st) (loads_more st)
                      (<[id := UserRow (r_role f) (r_name f) (r_email f) password_hash
                                 (r_company f) (r_phone f) (r_mc_number f)]> (users st))
                      id (saved_loads st) (saved_loads_seq st))
       end
  else None.

(** [/register]; [password_hash] stands for what
    [generate_password_hash(pwd)] returned. *)
Definition register (method : http_method) (f : register_form) (password_hash : string)
    (st : site) : reply * site :=
  match method with
  | POST =>
      if negb (email_matches (r_email f))
      then (Render "Register" (Some "Invalid email"), st)
      else if (py_len (r_password f) <? 6)%nat
      then (Render "Register" (Some "Password must be at least 6 chars"), st)
      else match insert_user f password_hash st with
           | Some st' =>
               (RedirectTo ToLogin (Some "Registration successful. Please login."), st')
           | None => (Render "Register" (Some "Email already registered."), st)
           end
  | GET => (Render "Register" None, st)
  end.

(** [/login]; [email] is the field lowercased and stripped, [next] the
    query parameter.  The handler reads [users] and writes the session;
    the key ["name"] it also sets is read nowhere and is left out. *)
Definition login (check_password_hash : string -> string -> bool) (method : http_method)
    (email pwd : string) (next : option string) (s : session) (st : site)
    : reply * session :=
  match method with
  | POST =>
      match select_user_by_email email st with
      | Some (id, u) =>
          if check_password_hash (u_password_hash u) pwd
          then (RedirectTo (match next with
                            | Some (String c url) => ToUrl (String c url)
                            | _ => ToDashboard
                            end)
                           (Some ("Welcome back, " ++ u_name u)),
                Session (Some id) (Some (u_role u)))
          else (Render "Login" (Some "Invalid credentials"), s)
      | None => (Render "Login" (Some "Invalid credentials"), s)
      end
  | GET => (Render "Login" None, s)
  end.

(** [/logout]: [session.clear()]. *)
Definition logout (s : session) : reply * session :=
  (RedirectTo ToHome (Some "Signed out."), Session None None).

(** *** Requests to the whole site *)

Inductive site_request :=
  | Engine (r : request)
  | NewLoad (s : session) (method : http_method) (f : load_form)
  | SaveLoad (s : session) (load_id : nat)
  | RegisterUser (method : http_method) (f : register_form) (password_hash : string).

(** The stored state after one request; a request to the engine runs on
    its two tables. *)
Definition site_step (st : site) (r : site_request) : site :=
  match r with
  | Engine r =>
      Site (step (engine st) r) (loads_seq st) (loads_more st) (users st) (users_seq st)
           (saved_loads st) (saved_loads_seq st)
  | NewLoad s method f => (new_load s method f st).2
  | SaveLoad s load_id => (save_load s load_id st).2
  | RegisterUser method f password_hash => (register method f password_hash st).2
  end.

Definition site_run (st : site) (rs : list site_request) : site := foldl site_step st rs.

(** Every accepted bid belongs to a load that exists. *)
Definition accepted_has_load (d : db) : Prop :=
  forall i b, bids d !! i = Some b -> b_status b = "accepted" ->
              is_Some (loads d !! b_load_id b).

(** No two users share an email ([email UNIQUE]). *)
Definition emails_unique (st : site) : Prop :=
  forall i j ui uj, users st !! i = Some ui -> users st !! j = Some uj ->
                    u_email ui = u_email uj -> i = j.

(** No two rows of [saved_loads] hold the same user and load
    ([UNIQUE(user_id, load_id)]). *)
Definition saved_unique (st : site) : Prop :=
  forall i j ri rj, saved_loads st !! i = Some ri -> saved_loads st !! j = Some rj ->
                    sv_user_id ri = sv_user_id rj -> sv_load_id ri = sv_load_id rj -> i = j.

(** The properties of the stored state that every request keeps. *)
Definition site_inv (st : site) : Prop :=
  pending_inv (engine st) /\ accepted_inv (engine st) /\ accepted_has_load (engine st)
  /\ emails_unique st /\ saved_unique st.

(** A site around the scenario: an admin, the poster and the two
    truckers are registered. *)
Definition site_two_bids : site :=
  Site db_two_bids 1
       {[ 1 := LoadMore None None None None None None ]}
       {[ 1 := UserRow "admin" "Administrator" "admin@demo.com" "h-admin" None None None;
          10 := UserRow "shipper" "Pat" "pat@ship.example" "h-pat" None None None;
          20 := UserRow "trucker" "Ann" "ann@haul.example" "h-ann" None None None;
          21 := UserRow "trucker" "Bob" "bob@haul.example" "h-bob" None None None ]}
       21 ∅ 0.

(** * Properties *)

(** ** The checks of the handlers *)

(** The 403 test of [accept_bid], [reject_bid] and [update_status]
    passes exactly for the poster and for admins. *)
Lemma forbidden_false_iff (s : session) (uid shipper : nat) :
  user_id s = Some uid ->
  bool_decide (uid ≠ shipper) && bool_decide (role s ≠ Some "admin") = false
  <-> authorized s shipper.
Proof.
  intros Hu. unfold authorized. rewrite andb_false_iff, !bool_decide_eq_false.
  split.
  - intros [H | H]; exists uid; split; auto.
    + left. by destruct (decide (uid = shipper)).
    + right. by destruct (decide (role s = Some "admin")).
  - intros (uid' & Hu' & H). assert (uid' = uid) as -> by congruence.
    destruct H as [-> | ->]; [left | right]; auto.
Qed.

Lemma forbidden_cases (s : session) (uid shipper : nat) :
  user_id s = Some uid ->
  bool_decide (uid ≠ shipper) && bool_decide (role s ≠ Some "admin") = true
  \/ (bool_decide (uid ≠ shipper) && bool_decide (role s ≠ Some "admin") = false
      /\ authorized s shipper).
Proof.
  intros Hu.
  destruct (bool_decide (uid ≠ shipper) && bool_decide (role s ≠ Some "admin")) eqn:E;
    [by left | right; split; [done | by apply (forbidden_false_iff s uid)]].
Qed.

(** The role test of [place_bid] passes exactly for truckers and
    admins. *)
Lemma trucker_check_false_iff (s : session) :
  bool_decide (role s ∉ Some <$> ["trucker"]) && bool_decide (role s ≠ Some "admin") = false
  <-> role s = Some "trucker" \/ role s = Some "admin".
Proof.
  rewrite andb_false_iff, !bool_decide_eq_false. split.
  - intros [H | H].
    + left. destruct (decide (role s = Some "trucker")) as [|Hn]; [done|].
      exfalso. apply H. intros Hin. apply Hn.
      apply list_elem_of_fmap in Hin as (x & -> & Hx).
      apply list_elem_of_singleton in Hx. by rewrite Hx.
    + right. by destruct (decide (role s = Some "admin")).
  - intros [-> | ->]; [left | right]; [set_solver | auto].
Qed.

(** The amount test: zero of either sign and negative amounts are
    refused, a NaN is not. *)
Example le_zero_values :
  le_zero (S754_zero true) = true /\ le_zero (S754_finite true 5 0) = true
  /\ le_zero amount_500 = false /\ le_zero (S754_infinity false) = false
  /\ le_zero S754_nan = false.
Proof. repeat split. Qed.

(** ** The queries *)

Lemma lookup_pending_None (load_id trucker_id : nat) (d : db) :
  lookup_pending load_id trucker_id d = None
  <-> forall i b, bids d !! i = Some b -> ~ pending_of load_id trucker_id b.
Proof.
  unfold lookup_pending. rewrite fmap_None, head_None. split.
  - intros Hnil i b Hb Hp.
    apply (filter_nil_not_elem_of _ _ (i, b) Hnil Hp).
    by apply elem_of_map_to_list.
  - intros Hall.
    destruct (filter _ (map_to_list (bids d))) as [|[i b] rest] eqn:E; [done|].
    assert ((i, b) ∈ filter (fun kb : nat * bid_row => pending_of load_id trucker_id kb.2)
                              (map_to_list (bids d))) as Hin
      by (rewrite E; left).
    apply list_elem_of_filter in Hin as [Hp Hin'].
    apply elem_of_map_to_list in Hin'. by destruct (Hall i b Hin').
Qed.

Lemma lookup_pending_Some (load_id trucker_id : nat) (d : db) (i : nat) (b : bid_row) :
  bids d !! i = Some b -> pending_of load_id trucker_id b ->
  exists j, lookup_pending load_id trucker_id d = Some j.
Proof.
  intros Hb Hp.
  destruct (lookup_pending load_id trucker_id d) as [j|] eqn:E; [by exists j|].
  rewrite lookup_pending_None in E. by destruct (E i b Hb).
Qed.

(** [AUTOINCREMENT] never hands out an id that is in use. *)
Lemma next_bid_id_fresh (d : db) : bids d !! next_bid_id d = None.
Proof.
  destruct (bids d !! next_bid_id d) as [b|] eqn:E; [exfalso | done].
  assert (next_bid_id d ∈ (map_to_list (bids d)).*1) as Hin.
  { apply list_elem_of_fmap. exists (next_bid_id d, b).
    split; [done | by apply elem_of_map_to_list]. }
  apply max_list_elem_of_le in Hin. unfold next_bid_id in Hin. lia.
Qed.

(** ** What each handler does to the database *)

(** An [UPDATE ... WHERE id=?] that finds its row replaces it. *)
Lemma alter_found {A} (f : A -> A) (m : gmap nat A) (i : nat) (x : A) :
  m !! i = Some x -> alter f i m = <[i := f x]> m.
Proof.
  intros Hx. apply map_eq. intros k. destruct (decide (k = i)) as [->|Hne].
  - by rewrite lookup_alter_eq, lookup_insert_eq, Hx.
  - by rewrite lookup_alter_ne, lookup_insert_ne.
Qed.

Ltac run_handler :=
  unfold serve, get_db, login_required, role_required, mbind, req_bind, mret, req_ret,
    select_bid_join, select_shipper, select_pending, select_by,
    query, execute, commit, abort, raise; simpl.

(** [accept_bid] on an existing bid of an existing load, called by the
    poster or an admin: the three updates are committed. *)
Lemma serve_accept_bid (d : db) (s : session) (bid_id : nat) (b : bid_row) (l : load_row) :
  bids d !! bid_id = Some b ->
  loads d !! b_load_id b = Some l ->
  authorized s (l_shipper_id l) ->
  serve (accept_bid s bid_id) d =
    (RedirectViewLoad (b_load_id b) "Bid accepted and load assigned.",
     Db (alter (set_load_assigned (b_trucker_id b)) (b_load_id b) (loads d))
        (map_imap (fun k bk =>
           Some (if bool_decide (b_load_id bk = b_load_id b) && bool_decide (k ≠ bid_id)
                 then set_bid_status "rejected" bk else bk))
           (alter (set_bid_status "accepted") bid_id (bids d)))
        (bids_seq d)).
Proof.
  intros Hb Hl Hauth. pose proof Hauth as (uid & Hu & _).
  apply (forbidden_false_iff s uid) in Hauth; [|done].
  unfold accept_bid. run_handler. rewrite Hu.
  unfold lookup_bid_join. simpl. rewrite Hb. simpl. rewrite Hl. simpl.
  rewrite Hauth. reflexivity.
Qed.

(** In every other case [accept_bid] leaves the database as it was. *)
Lemma step_accept_bid_cases (d : db) (s : session) (bid_id : nat) :
  step d (AcceptBid s bid_id) = d
  \/ exists b l, bids d !! bid_id = Some b /\ loads d !! b_load_id b = Some l
                 /\ authorized s (l_shipper_id l).
Proof.
  unfold step. simpl.
  destruct (user_id s) as [uid|] eqn:Hu;
    [| left; unfold accept_bid; run_handler; by rewrite Hu].
  destruct (bids d !! bid_id) as [b|] eqn:Hb.
  - destruct (loads d !! b_load_id b) as [l|] eqn:Hl.
    + destruct (forbidden_cases s uid (l_shipper_id l) Hu) as [Hf | [_ Ha]].
      * left. unfold accept_bid. run_handler. rewrite Hu.
        unfold lookup_bid_join. simpl. rewrite Hb. simpl. rewrite Hl. simpl.
        by rewrite Hf.
      * right. by exists b, l.
    + left. unfold accept_bid. run_handler. rewrite Hu.
      unfold lookup_bid_join. simpl. rewrite Hb. simpl. rewrite Hl. simpl.
      by destruct (sqlite_int bid_id).
  - left. unfold accept_bid. run_handler. rewrite Hu.
    unfold lookup_bid_join. simpl. rewrite Hb. simpl.
    by destruct (sqlite_int bid_id).
Qed.

(** The rows of [bids] after a committed [accept_bid]. *)
Lemma lookup_bids_after_accept (m : gmap nat bid_row) (load_id bid_id k : nat) :
  map_imap (fun k bk =>
      Some (if bool_decide (b_load_id bk = load_id) && bool_decide (k ≠ bid_id)
            then set_bid_status "rejected" bk else bk))
    (alter (set_bid_status "accepted") bid_id m) !! k
  = (fun bk => if decide (k = bid_id) then set_bid_status "accepted" bk
               else if decide (b_load_id bk = load_id) then set_bid_status "rejected" bk
               else bk) <$> m !! k.
Proof.
  rewrite map_lookup_imap. destruct (decide (k = bid_id)) as [->|Hne].
  - rewrite lookup_alter_eq. destruct (m !! bid_id) as [bk|]; simpl; [|done].
    rewrite (bool_decide_eq_false_2 (bid_id ≠ bid_id)) by auto.
    by rewrite andb_false_r.
  - rewrite lookup_alter_ne by done. destruct (m !! k) as [bk|]; simpl; [|done].
    rewrite (bool_decide_eq_true_2 (k ≠ bid_id)) by done. rewrite andb_true_r.
    by destruct (decide (b_load_id bk = load_id));
      [rewrite bool_decide_eq_true_2 | rewrite bool_decide_eq_false_2].
Qed.

(** [reject_bid] on an existing bid of an existing load, called by the
    poster or an admin: one row of [bids] is rewritten. *)
Lemma serve_reject_bid (d : db) (s : session) (bid_id : nat) (b : bid_row) (l : load_row) :
  bids d !! bid_id = Some b ->
  loads d !! b_load_id b = Some l ->
  authorized s (l_shipper_id l) ->
  serve (reject_bid s bid_id) d =
    (RedirectViewLoad (b_load_id b) "Bid rejected.",
     Db (loads d) (<[bid_id := set_bid_status "rejected" b]> (bids d)) (bids_seq d)).
Proof.
  intros Hb Hl Hauth. pose proof Hauth as (uid & Hu & _).
  apply (forbidden_false_iff s uid) in Hauth; [|done].
  unfold reject_bid. run_handler. rewrite Hu.
  unfold lookup_bid_join. simpl. rewrite Hb. simpl. rewrite Hl. simpl.
  rewrite Hauth. simpl. by rewrite (alter_found _ _ _ _ Hb).
Qed.

Lemma step_reject_bid_cases (d : db) (s : session) (bid_id : nat) :
  step d (RejectBid s bid_id) = d
  \/ exists b l, bids d !! bid_id = Some b /\ loads d !! b_load_id b = Some l
                 /\ authorized s (l_shipper_id l).
Proof.
  unfold step. simpl.
  destruct (user_id s) as [uid|] eqn:Hu;
    [| left; unfold reject_bid; run_handler; by rewrite Hu].
  destruct (bids d !! bid_id) as [b|] eqn:Hb.
  - destruct (loads d !! b_load_id b) as [l|] eqn:Hl.
    + destruct (forbidden_cases s uid (l_shipper_id l) Hu) as [Hf | [_ Ha]].
      * left. unfold reject_bid. run_handler. rewrite Hu.
        unfold lookup_bid_join. simpl. rewrite Hb. simpl. rewrite Hl. simpl.
        by rewrite Hf.
      * right. by exists b, l.
    + left. unfold reject_bid. run_handler. rewrite Hu.
      unfold lookup_bid_join. simpl. rewrite Hb. simpl. rewrite Hl. simpl.
      by destruct (sqlite_int bid_id).
  - left. unfold reject_bid. run_handler. rewrite Hu.
    unfold lookup_bid_join. simpl. rewrite Hb. simpl.
    by destruct (sqlite_int bid_id).
Qed.

(** [update_status] on an existing load, called by the poster or an
    admin with one of the five status names: the status column of that
    row is overwritten, whatever it held. *)
Lemma serve_update_status (d : db) (s : session) (load_id : nat) (status : string)
    (l : load_row) :
  loads d !! load_id = Some l ->
  authorized s (l_shipper_id l) ->
  status ∈ status_names ->
  serve (update_status s load_id status) d =
    (RedirectViewLoad load_id ("Status updated to " ++ status ++ "."),
     Db (<[load_id := set_load_status status l]> (loads d)) (bids d) (bids_seq d)).
Proof.
  intros Hl Hauth Hst. pose proof Hauth as (uid & Hu & _).
  apply (forbidden_false_iff s uid) in Hauth; [|done].
  unfold update_status. run_handler. rewrite Hu.
  rewrite (bool_decide_eq_false_2 (status ∉ status_names)) by auto. simpl.
  unfold lookup_shipper. rewrite Hl. simpl. rewrite Hauth. simpl.
  by rewrite (alter_found _ _ _ _ Hl).
Qed.

(** A status outside the five names is refused with 400 before the
    database is read. *)
Lemma serve_update_status_400 (d : db) (s : session) (uid load_id : nat) (status : string) :
  user_id s = Some uid ->
  status ∉ status_names ->
  serve (update_status s load_id status) d = (Abort 400, d).
Proof.
  intros Hu Hst. unfold update_status. run_handler. rewrite Hu.
  by rewrite (bool_decide_eq_true_2 (status ∉ status_names)).
Qed.

Lemma step_update_status_cases (d : db) (s : session) (load_id : nat) (status : string) :
  step d (UpdateStatus s load_id status) = d
  \/ exists l, loads d !! load_id = Some l /\ authorized s (l_shipper_id l)
               /\ status ∈ status_names.
Proof.
  unfold step. simpl.
  destruct (user_id s) as [uid|] eqn:Hu;
    [| left; unfold update_status; run_handler; by rewrite Hu].
  destruct (decide (status ∈ status_names)) as [Hst|Hst];
    [| left; by rewrite (serve_update_status_400 d s uid)].
  destruct (loads d !! load_id) as [l|] eqn:Hl.
  - destruct (forbidden_cases s uid (l_shipper_id l) Hu) as [Hf | [_ Ha]].
    + left. unfold update_status. run_handler. rewrite Hu.
      rewrite (bool_decide_eq_false_2 (status ∉ status_names)) by auto. simpl.
      unfold lookup_shipper. rewrite Hl. simpl. by rewrite Hf.
    + right. by exists l.
  - left. unfold update_status. run_handler. rewrite Hu.
    rewrite (bool_decide_eq_false_2 (status ∉ status_names)) by auto. simpl.
    unfold lookup_shipper. rewrite Hl. simpl.
    by destruct (sqlite_int load_id).
Qed.

(** [place_bid] by a trucker or an admin with an amount above zero and no
    pending bid of theirs on that load id: one row is inserted, with a
    fresh id and status pending.  The [loads] table is not read. *)
Lemma serve_place_bid (d : db) (s : session) (uid load_id : nat) (a : spec_float)
    (message : option string) :
  user_id s = Some uid ->
  role s = Some "trucker" \/ role s = Some "admin" ->
  le_zero a = false -> is_nan a = false ->
  lookup_pending load_id uid d = None ->
  sqlite_int load_id = true ->
  serve (place_bid s load_id (Some a) message) d =
    (RedirectViewLoad load_id "Bid submitted.",
     Db (loads d)
        (<[next_bid_id d := BidRow load_id uid a message "pending"]> (bids d))
        (next_bid_id d)).
Proof.
  intros Hu Hrole Hle Hnan Hsel Hrng.
  apply trucker_check_false_iff in Hrole. simpl in Hrole.
  unfold place_bid. run_handler. rewrite Hu, Hrole. simpl. rewrite Hle. simpl.
  rewrite Hsel, Hrng. simpl. unfold insert_bid. rewrite Hnan. reflexivity.
Qed.

(** A pending bid of the caller on that load id stops [place_bid]. *)
Lemma serve_place_bid_duplicate (d : db) (s : session) (uid load_id j : nat)
    (a : spec_float) (message : option string) :
  user_id s = Some uid ->
  role s = Some "trucker" \/ role s = Some "admin" ->
  le_zero a = false ->
  lookup_pending load_id uid d = Some j ->
  serve (place_bid s load_id (Some a) message) d =
    (RedirectViewLoad load_id "You already have a pending bid on this load.", d).
Proof.
  intros Hu Hrole Hle Hsel. apply trucker_check_false_iff in Hrole. simpl in Hrole.
  unfold place_bid. run_handler. rewrite Hu, Hrole. simpl. rewrite Hle. simpl.
  by rewrite Hsel.
Qed.

Lemma step_place_bid_cases (d : db) (s : session) (load_id : nat)
    (amount : option spec_float) (message : option string) :
  step d (PlaceBid s load_id amount message) = d
  \/ exists uid a,
       user_id s = Some uid /\ (role s = Some "trucker" \/ role s = Some "admin")
       /\ amount = Some a /\ le_zero a = false /\ is_nan a = false
       /\ lookup_pending load_id uid d = None /\ sqlite_int load_id = true.
Proof.
  unfold step. simpl.
  destruct (user_id s) as [uid|] eqn:Hu;
    [| left; unfold place_bid; run_handler; by rewrite Hu].
  destruct (bool_decide (role s ∉ Some <$> ["trucker"])
            && bool_decide (role s ≠ Some "admin")) eqn:Hrole;
    pose proof Hrole as Hrole'; simpl in Hrole;
    [left; unfold place_bid; run_handler; by rewrite Hu, Hrole|].
  destruct amount as [a|];
    [| left; unfold place_bid; run_handler; by rewrite Hu, Hrole].
  destruct (le_zero a) eqn:Hle;
    [left; unfold place_bid; run_handler; rewrite Hu, Hrole; simpl; by rewrite Hle|].
  destruct (lookup_pending load_id uid d) as [j|] eqn:Hsel;
    [left; unfold place_bid; run_handler; rewrite Hu, Hrole; simpl; rewrite Hle; simpl;
     by rewrite Hsel|].
  destruct (sqlite_int load_id) eqn:Hrng;
    [|left; unfold place_bid; run_handler; rewrite Hu, Hrole; simpl; rewrite Hle; simpl;
      by rewrite Hsel, Hrng].
  destruct (is_nan a) eqn:Hnan.
  - left. unfold place_bid. run_handler. rewrite Hu, Hrole. simpl. rewrite Hle. simpl.
    rewrite Hsel, Hrng. simpl. unfold insert_bid. by rewrite Hnan.
  - right. exists uid, a. apply trucker_check_false_iff in Hrole'. done.
Qed.

(** ** The scenario, run *)

Lemma scenario_two_bids :
  run db_open [PlaceBid bidder_a 1 (Some amount_500) None;
               PlaceBid bidder_b 1 (Some amount_450) None] = db_two_bids.
Proof. vm_compute. reflexivity. Qed.

Lemma scenario_accept_first : step db_two_bids (AcceptBid poster 1) = db_assigned.
Proof. vm_compute. reflexivity. Qed.

Lemma authorized_poster : authorized poster 10.
Proof. exists 10. split; [reflexivity | by left]. Qed.

(** ** Bid resolution *)

(** The net effect of [accept_bid], for a load in any status. *)
Lemma accept_bid_effect (d : db) (s : session) (bid_id : nat) (b : bid_row) (l : load_row) :
  bids d !! bid_id = Some b ->
  loads d !! b_load_id b = Some l ->
  authorized s (l_shipper_id l) ->
  exists d',
    serve (accept_bid s bid_id) d
      = (RedirectViewLoad (b_load_id b) "Bid accepted and load assigned.", d')
    /\ bids d' !! bid_id = Some (set_bid_status "accepted" b)
    /\ (forall k bk, k ≠ bid_id -> bids d !! k = Some bk -> b_load_id bk = b_load_id b ->
          bids d' !! k = Some (set_bid_status "rejected" bk))
    /\ (forall k bk, k ≠ bid_id -> bids d !! k = Some bk -> b_load_id bk ≠ b_load_id b ->
          bids d' !! k = Some bk)
    /\ (forall k, bids d !! k = None -> bids d' !! k = None)
    /\ loads d' !! b_load_id b = Some (set_load_assigned (b_trucker_id b) l)
    /\ (forall k, k ≠ b_load_id b -> loads d' !! k = loads d !! k)
    /\ bids_seq d' = bids_seq d.
Proof.
  intros Hb Hl Hauth. eexists. split; [by apply (serve_accept_bid d s bid_id b l)|].
  simpl. repeat split.
  - rewrite lookup_bids_after_accept, Hb. simpl. by rewrite decide_True.
  - intros k bk Hne Hk Hsame. rewrite lookup_bids_after_accept, Hk. simpl.
    by rewrite decide_False, decide_True.
  - intros k bk Hne Hk Hdiff. rewrite lookup_bids_after_accept, Hk. simpl.
    by rewrite !decide_False.
  - intros k Hk. by rewrite lookup_bids_after_accept, Hk.
  - by rewrite lookup_alter_eq, Hl.
  - intros k Hne. by rewrite lookup_alter_ne.
Qed.

(** C1 (as the code has it): [accept_bid] never reads the status of the
    load.  On a load that is not open -- assigned, in transit,
    delivered or cancelled -- an authorized call succeeds like on an
    open one: the bid becomes accepted, the other bids of the load
    rejected, the load assigned to the bid's trucker.  A second
    acceptance is applied again; nothing answers "load not open". *)
Theorem accept_bid_ignores_load_status (d : db) (s : session) (bid_id : nat)
    (b : bid_row) (l : load_row) :
  bids d !! bid_id = Some b ->
  loads d !! b_load_id b = Some l ->
  l_status l ≠ "open" ->
  authorized s (l_shipper_id l) ->
  exists d',
    serve (accept_bid s bid_id) d
      = (RedirectViewLoad (b_load_id b) "Bid accepted and load assigned.", d')
    /\ bids d' !! bid_id = Some (set_bid_status "accepted" b)
    /\ (forall k bk, k ≠ bid_id -> bids d !! k = Some bk -> b_load_id bk = b_load_id b ->
          bids d' !! k = Some (set_bid_status "rejected" bk))
    /\ loads d' !! b_load_id b = Some (set_load_assigned (b_trucker_id b) l).
Proof.
  intros Hb Hl _ Hauth.
  destruct (accept_bid_effect d s bid_id b l Hb Hl Hauth)
    as (d' & Hserve & Hacc & Hrej & _ & _ & Hload & _).
  exists d'. auto.
Qed.

Lemma accept_bid_ignores_load_status_witness :
  exists d',
    serve (accept_bid poster 2) db_assigned
      = (RedirectViewLoad 1 "Bid accepted and load assigned.", d')
    /\ bids d' !! 2 = Some (bid_b "accepted")
    /\ (forall k bk, k ≠ 2 -> bids db_assigned !! k = Some bk -> b_load_id bk = 1 ->
          bids d' !! k = Some (set_bid_status "rejected" bk))
    /\ loads d' !! 1 = Some (LoadRow 10 info_1 "assigned" (Some 21)).
Proof.
  apply (accept_bid_ignores_load_status db_assigned poster 2
           (bid_b "rejected") (LoadRow 10 info_1 "assigned" (Some 20))).
  - reflexivity.
  - reflexivity.
  - simpl. discriminate.
  - exists 10. split; [reflexivity | left; reflexivity].
Defined.

(** C1 fails as stated: with the load assigned to trucker 20 after the
    first acceptance, the poster accepts the second bid; the call
    succeeds, both bids change status and the load goes to trucker 21. *)
Lemma accept_bid_not_open_counterexample :
  bids db_assigned !! 2 = Some (bid_b "rejected")
  /\ loads db_assigned !! 1 = Some (LoadRow 10 info_1 "assigned" (Some 20))
  /\ authorized poster 10
  /\ serve (accept_bid poster 2) db_assigned
     = (RedirectViewLoad 1 "Bid accepted and load assigned.", db_reassigned)
  /\ loads db_reassigned !! 1 ≠ loads db_assigned !! 1
  /\ bids db_reassigned !! 1 ≠ bids db_assigned !! 1
  /\ bids db_reassigned !! 2 ≠ bids db_assigned !! 2.
Proof.
  split; [reflexivity|]. split; [reflexivity|].
  split; [exact authorized_poster|].
  split; [vm_compute; reflexivity|].
  repeat split; vm_compute; discriminate.
Qed.

(** C2: on an open load, [accept_bid] by the poster or an admin has
    exactly this effect: the chosen bid becomes accepted, every other
    bid of the load rejected whatever it was, the load assigned with the
    chosen bid's trucker; bids of other loads, other loads, the other
    columns and the id counter stay as they were. *)
Theorem accept_bid_on_open_load (d : db) (s : session) (bid_id : nat)
    (b : bid_row) (l : load_row) :
  bids d !! bid_id = Some b ->
  loads d !! b_load_id b = Some l ->
  l_status l = "open" ->
  authorized s (l_shipper_id l) ->
  exists d',
    serve (accept_bid s bid_id) d
      = (RedirectViewLoad (b_load_id b) "Bid accepted and load assigned.", d')
    /\ bids d' !! bid_id = Some (set_bid_status "accepted" b)
    /\ (forall k bk, k ≠ bid_id -> bids d !! k = Some bk -> b_load_id bk = b_load_id b ->
          bids d' !! k = Some (set_bid_status "rejected" bk))
    /\ (forall k bk, k ≠ bid_id -> bids d !! k = Some bk -> b_load_id bk ≠ b_load_id b ->
          bids d' !! k = Some bk)
    /\ (forall k, bids d !! k = None -> bids d' !! k = None)
    /\ loads d' !! b_load_id b
       = Some (LoadRow (l_shipper_id l) (l_info l) "assigned" (Some (b_trucker_id b)))
    /\ (forall k, k ≠ b_load_id b -> loads d' !! k = loads d !! k)
    /\ bids_seq d' = bids_seq d.
Proof.
  intros Hb Hl _ Hauth. exact (accept_bid_effect d s bid_id b l Hb Hl Hauth).
Qed.

Lemma accept_bid_on_open_load_witness :
  exists d',
    serve (accept_bid poster 1) db_two_bids
      = (RedirectViewLoad 1 "Bid accepted and load assigned.", d')
    /\ bids d' !! 1 = Some (bid_a "accepted")
    /\ (forall k bk, k ≠ 1 -> bids db_two_bids !! k = Some bk -> b_load_id bk = 1 ->
          bids d' !! k = Some (set_bid_status "rejected" bk))
    /\ (forall k bk, k ≠ 1 -> bids db_two_bids !! k = Some bk -> b_load_id bk ≠ 1 ->
          bids d' !! k = Some bk)
    /\ (forall k, bids db_two_bids !! k = None -> bids d' !! k = None)
    /\ loads d' !! 1 = Some (LoadRow 10 info_1 "assigned" (Some 20))
    /\ (forall k, k ≠ 1 -> loads d' !! k = loads db_two_bids !! k)
    /\ bids_seq d' = 2.
Proof.
  apply (accept_bid_on_open_load db_two_bids poster 1
           (bid_a "pending") (LoadRow 10 info_1 "open" None)).
  - reflexivity.
  - reflexivity.
  - reflexivity.
  - exists 10. split; [reflexivity | left; reflexivity].
Defined.

(** ** The assignee of a load *)

Lemma assignee_inv_insert (d : db) (m : gmap nat bid_row) (n : nat) :
  assignee_inv d -> assignee_inv (Db (loads d) m n).
Proof. intros H id l Hl. exact (H id l Hl). Qed.

Lemma open_not_active : "open" ∉ active_statuses.
Proof. compute_done. Qed.

Lemma assignee_inv_row_assigned (l : load_row) (t : nat) :
  assignee_inv_row (set_load_assigned t l).
Proof.
  unfold assignee_inv_row, active_statuses. simpl. split; [set_solver | done].
Qed.

(** C3 (as the code has it): from a state where every load has a
    trucker exactly in the statuses assigned, in_transit and delivered,
    [place_bid], [accept_bid] and [reject_bid] lead to such a state.
    [update_status] writes the status column only and leaves
    [trucker_id] as it is: after a successful call the property holds
    exactly when the new status and the old one are on the same side,
    both among assigned, in_transit, delivered or both outside. *)
Theorem assignee_inv_step (d : db) (r : request) :
  assignee_inv d ->
  match r with
  | UpdateStatus s load_id status =>
      forall l, loads d !! load_id = Some l ->
                authorized s (l_shipper_id l) ->
                status ∈ status_names ->
                (assignee_inv (step d r)
                 <-> (status ∈ active_statuses <-> l_status l ∈ active_statuses))
  | _ => assignee_inv (step d r)
  end.
Proof.
  intros Hinv. destruct r as [s load_id amount message | s bid_id | s bid_id | s load_id status].
  - destruct (step_place_bid_cases d s load_id amount message)
      as [-> | (uid & a & Hu & Hrole & -> & Hle & Hnan & Hsel & Hrng)]; [done|].
    unfold step. simpl. rewrite (serve_place_bid d s uid) by done.
    by apply assignee_inv_insert.
  - destruct (step_accept_bid_cases d s bid_id) as [-> | (b & l & Hb & Hl & Hauth)]; [done|].
    unfold step. simpl. rewrite (serve_accept_bid d s bid_id b l) by done.
    intros id l' Hl'. simpl in Hl'.
    destruct (decide (id = b_load_id b)) as [->|Hne].
    + rewrite lookup_alter_eq, Hl in Hl'. simpl in Hl'. injection Hl' as <-.
      apply assignee_inv_row_assigned.
    + rewrite lookup_alter_ne in Hl' by done. exact (Hinv id l' Hl').
  - destruct (step_reject_bid_cases d s bid_id) as [-> | (b & l & Hb & Hl & Hauth)]; [done|].
    unfold step. simpl. rewrite (serve_reject_bid d s bid_id b l) by done.
    by apply assignee_inv_insert.
  - intros l Hl Hauth Hst. unfold step. simpl.
    rewrite (serve_update_status d s load_id status l) by done. simpl.
    pose proof (Hinv load_id l Hl) as Hrow. unfold assignee_inv_row in Hrow.
    split.
    + intros Hnew.
      pose proof (Hnew load_id (set_load_status status l)) as Hrow'.
      simpl in Hrow'. rewrite lookup_insert_eq in Hrow'.
      specialize (Hrow' eq_refl). unfold assignee_inv_row in Hrow'. simpl in Hrow'.
      tauto.
    + intros Hside id l' Hl'. simpl in Hl'.
      destruct (decide (id = load_id)) as [->|Hne].
      * rewrite lookup_insert_eq in Hl'. injection Hl' as <-.
        unfold assignee_inv_row. simpl. tauto.
      * rewrite lookup_insert_ne in Hl' by done. exact (Hinv id l' Hl').
Qed.

Lemma assignee_inv_db_two_bids : assignee_inv db_two_bids.
Proof.
  intros id l Hl. unfold db_two_bids in Hl. cbn [loads] in Hl.
  apply lookup_singleton_Some in Hl as [_ <-].
  unfold assignee_inv_row. simpl. split; [done | intros H; by apply open_not_active in H].
Qed.

Lemma assignee_inv_step_witness :
  assignee_inv (step db_two_bids (AcceptBid poster 1)).
Proof.
  apply (assignee_inv_step db_two_bids (AcceptBid poster 1)).
  intros id l Hl. unfold db_two_bids in Hl. cbn [loads] in Hl.
  apply lookup_singleton_Some in Hl as [_ <-].
  unfold assignee_inv_row. simpl. split; [done | intros H; by apply open_not_active in H].
Defined.

(** C3 fails as stated: the open load satisfies the property; the
    poster marks it assigned with [update_status]; the call succeeds
    and the load is assigned without a trucker. *)
Lemma assignee_inv_counterexample :
  assignee_inv db_two_bids
  /\ serve (update_status poster 1 "assigned") db_two_bids
     = (RedirectViewLoad 1 "Status updated to assigned.",
        Db {[ 1 := LoadRow 10 info_1 "assigned" None ]} (bids db_two_bids) 2)
  /\ ~ assignee_inv (step db_two_bids (UpdateStatus poster 1 "assigned")).
Proof.
  split; [exact assignee_inv_db_two_bids|].
  split; [vm_compute; reflexivity|].
  intros H.
  pose proof (H 1 (LoadRow 10 info_1 "assigned" None)) as Hrow.
  assert (loads (step db_two_bids (UpdateStatus poster 1 "assigned")) !! 1
          = Some (LoadRow 10 info_1 "assigned" None)) as Hl by (vm_compute; reflexivity).
  specialize (Hrow Hl). unfold assignee_inv_row, active_statuses in Hrow. simpl in Hrow.
  destruct Hrow as [_ Hrow]. apply Hrow; [set_solver | done].
Qed.

(** ** Status changes *)

(** C4 (as the code has it): [update_status] checks the requested
    status against the five status names and nothing else.  For an
    existing load and its poster or an admin, every one of the five
    names is written over the current status, whatever that is --
    delivered and cancelled included; any other name is refused with
    400.  No request is refused for the edge it would follow. *)
Theorem update_status_any_edge (d : db) (s : session) (load_id : nat) (status : string)
    (l : load_row) :
  loads d !! load_id = Some l ->
  authorized s (l_shipper_id l) ->
  (status ∈ status_names
   /\ serve (update_status s load_id status) d
      = (RedirectViewLoad load_id ("Status updated to " ++ status ++ "."),
         Db (<[load_id := LoadRow (l_shipper_id l) (l_info l) status (l_trucker_id l)]>
               (loads d))
            (bids d) (bids_seq d)))
  \/ ((status ∉ status_names)
      /\ serve (update_status s load_id status) d = (Abort 400, d)).
Proof.
  intros Hl Hauth. destruct (decide (status ∈ status_names)) as [Hst|Hst].
  - left. split; [done|]. by apply serve_update_status.
  - right. split; [done|]. destruct Hauth as (uid & Hu & _).
    by apply (serve_update_status_400 d s uid).
Qed.

Lemma update_status_any_edge_witness :
  ("in_transit" ∈ status_names
   /\ serve (update_status poster 1 "in_transit") db_delivered
      = (RedirectViewLoad 1 "Status updated to in_transit.",
         Db (<[1 := LoadRow 10 info_1 "in_transit" (Some 20)]> (loads db_delivered))
            (bids db_delivered) 2))
  \/ (("in_transit" ∉ status_names)
      /\ serve (update_status poster 1 "in_transit") db_delivered
         = (Abort 400, db_delivered)).
Proof.
  apply (update_status_any_edge db_delivered poster 1 "in_transit"
           (LoadRow 10 info_1 "delivered" (Some 20))).
  - reflexivity.
  - exists 10. split; [reflexivity | left; reflexivity].
Defined.

(** C4 fails as stated: delivered to open is not an edge of the
    specification, and the poster's request to reopen the delivered
    load succeeds. *)
Lemma update_status_counterexample :
  loads db_delivered !! 1 = Some (LoadRow 10 info_1 "delivered" (Some 20))
  /\ authorized poster 10
  /\ allowed_edge "delivered" "open" = false
  /\ serve (update_status poster 1 "open") db_delivered
     = (RedirectViewLoad 1 "Status updated to open.",
        Db {[ 1 := LoadRow 10 info_1 "open" (Some 20) ]} (bids db_delivered) 2).
Proof.
  split; [reflexivity|]. split; [exact authorized_poster|].
  split; vm_compute; reflexivity.
Qed.

(** ** Placing bids *)

(** [place_bid] answers and inserts the same whatever the [loads] table
    holds -- the load open, closed or missing -- and leaves that table as
    it is. *)
Lemma place_bid_ignores_loads (s : session) (load_id : nat) (amount : option spec_float)
    (message : option string) (lo lo' : gmap nat load_row) (m : gmap nat bid_row) (n : nat) :
  (serve (place_bid s load_id amount message) (Db lo m n)).1
  = (serve (place_bid s load_id amount message) (Db lo' m n)).1
  /\ bids (serve (place_bid s load_id amount message) (Db lo m n)).2
     = bids (serve (place_bid s load_id amount message) (Db lo' m n)).2
  /\ loads (serve (place_bid s load_id amount message) (Db lo m n)).2 = lo.
Proof.
  unfold place_bid. run_handler.
  destruct (user_id s) as [uid|]; [|done].
  destruct (bool_decide (role s ∉ [Some "trucker"]) && bool_decide (role s ≠ Some "admin"));
    [done|].
  destruct amount as [a|]; simpl; [|done].
  destruct (le_zero a); simpl; [done|].
  unfold lookup_pending. simpl.
  destruct (head (filter _ (map_to_list m))); simpl; [done|].
  destruct (sqlite_int load_id); simpl; [|done].
  unfold insert_bid. by destruct (is_nan a).
Qed.

(** C5, at its failing input: the load is assigned; trucker 21, whose
    earlier bid was rejected, posts a bid of 450 on it.  [place_bid]
    never reads [loads]: the bid is inserted as row 3 with status
    pending. *)
Lemma place_bid_on_assigned_load :
  loads db_assigned !! 1 = Some (LoadRow 10 info_1 "assigned" (Some 20))
  /\ serve (place_bid bidder_b 1 (Some amount_450) None) db_assigned
     = (RedirectViewLoad 1 "Bid submitted.",
        Db (loads db_assigned)
           {[ 1 := bid_a "accepted"; 2 := bid_b "rejected"; 3 := bid_b "pending" ]} 3).
Proof. split; [reflexivity | vm_compute; reflexivity]. Qed.

(** ** One pending bid per load and trucker *)

(** If every pending row of [m'] is the same row of [bids d], the
    property carries over. *)
Lemma pending_inv_shrink (d : db) (lo : gmap nat load_row) (m' : gmap nat bid_row) (n : nat) :
  (forall k b', m' !! k = Some b' -> b_status b' = "pending" -> bids d !! k = Some b') ->
  pending_inv d -> pending_inv (Db lo m' n).
Proof.
  intros Hsub Hinv i j bi bj Hi Hj Hpi Hpj Hload Htr. simpl in Hi, Hj.
  apply (Hinv i j bi bj); auto.
Qed.

Lemma pending_inv_step (d : db) (r : request) :
  pending_inv d -> pending_inv (step d r).
Proof.
  intros Hinv. destruct r as [s load_id amount message | s bid_id | s bid_id | s load_id status].
  - destruct (step_place_bid_cases d s load_id amount message)
      as [-> | (uid & a & Hu & Hrole & -> & Hle & Hnan & Hsel & Hrng)]; [done|].
    unfold step. simpl. rewrite (serve_place_bid d s uid) by done. simpl.
    rewrite lookup_pending_None in Hsel.
    pose proof (next_bid_id_fresh d) as Hfresh.
    intros i j bi bj Hi Hj Hpi Hpj Hload Htr. simpl in Hi, Hj.
    destruct (decide (i = next_bid_id d)) as [->|Hi'];
      destruct (decide (j = next_bid_id d)) as [->|Hj']; [done | | |].
    + rewrite lookup_insert_eq in Hi. injection Hi as <-.
      rewrite lookup_insert_ne in Hj by done. simpl in Hload, Htr.
      destruct (Hsel j bj Hj). by repeat split.
    + rewrite lookup_insert_eq in Hj. injection Hj as <-.
      rewrite lookup_insert_ne in Hi by done. simpl in Hload, Htr.
      destruct (Hsel i bi Hi). by repeat split.
    + rewrite lookup_insert_ne in Hi, Hj by done. by apply (Hinv i j bi bj).
  - destruct (step_accept_bid_cases d s bid_id) as [-> | (b & l & Hb & Hl & Hauth)]; [done|].
    unfold step. simpl. rewrite (serve_accept_bid d s bid_id b l) by done. simpl.
    apply (pending_inv_shrink d); [|done].
    intros k b' Hk Hp. rewrite lookup_bids_after_accept in Hk.
    destruct (bids d !! k) as [bk|]; simpl in Hk; [|done]. injection Hk as <-.
    destruct (decide (k = bid_id)); [done|].
    by destruct (decide (b_load_id bk = b_load_id b)).
  - destruct (step_reject_bid_cases d s bid_id) as [-> | (b & l & Hb & Hl & Hauth)]; [done|].
    unfold step. simpl. rewrite (serve_reject_bid d s bid_id b l) by done. simpl.
    apply (pending_inv_shrink d); [|done].
    intros k b' Hk Hp. destruct (decide (k = bid_id)) as [->|Hne].
    + rewrite lookup_insert_eq in Hk. by injection Hk as <-.
    + by rewrite lookup_insert_ne in Hk.
  - destruct (step_update_status_cases d s load_id status)
      as [-> | (l & Hl & Hauth & Hst)]; [done|].
    unfold step. simpl. rewrite (serve_update_status d s load_id status l) by done. simpl.
    by apply (pending_inv_shrink d).
Qed.

Lemma pending_inv_run (d : db) (rs : list request) :
  pending_inv d -> pending_inv (run d rs).
Proof.
  revert d. induction rs as [|r rs IH]; intros d Hinv; [done|].
  simpl. apply IH. by apply pending_inv_step.
Qed.

(** C6: from a state with at most one pending bid per load and trucker,
    every sequence of requests leads to such a state; and there a
    further [place_bid] of a trucker who has a pending bid on the load
    inserts nothing, whatever the amount, and with an amount above zero
    answers that they already have a pending bid. *)
Theorem one_pending_bid (d : db) (rs : list request) :
  pending_inv d ->
  pending_inv (run d rs)
  /\ forall s uid load_id a message i b,
       user_id s = Some uid ->
       role s = Some "trucker" \/ role s = Some "admin" ->
       le_zero a = false ->
       bids (run d rs) !! i = Some b ->
       b_load_id b = load_id -> b_trucker_id b = uid -> b_status b = "pending" ->
       (forall amount, step (run d rs) (PlaceBid s load_id amount message) = run d rs)
       /\ serve (place_bid s load_id (Some a) message) (run d rs)
          = (RedirectViewLoad load_id "You already have a pending bid on this load.",
             run d rs).
Proof.
  intros Hinv. split; [by apply pending_inv_run|].
  intros s uid load_id a message i b Hu Hrole Hle Hb Hload Htr Hp.
  destruct (lookup_pending_Some load_id uid (run d rs) i b Hb) as [j Hj];
    [by repeat split|].
  split; [|by apply (serve_place_bid_duplicate (run d rs) s uid load_id j)].
  intros amount.
  destruct (step_place_bid_cases (run d rs) s load_id amount message)
    as [H | (uid' & a' & Hu' & _ & _ & _ & _ & Hsel & _)]; [done|].
  congruence.
Qed.

Lemma pending_inv_db_open : pending_inv db_open.
Proof. intros i j bi bj Hi. unfold db_open in Hi. cbn [bids] in Hi. by rewrite lookup_empty in Hi. Qed.

Lemma one_pending_bid_witness :
  pending_inv (run db_open [PlaceBid bidder_a 1 (Some amount_500) None])
  /\ forall s uid load_id a message i b,
       user_id s = Some uid ->
       role s = Some "trucker" \/ role s = Some "admin" ->
       le_zero a = false ->
       bids (run db_open [PlaceBid bidder_a 1 (Some amount_500) None]) !! i = Some b ->
       b_load_id b = load_id -> b_trucker_id b = uid -> b_status b = "pending" ->
       (forall amount,
          step (run db_open [PlaceBid bidder_a 1 (Some amount_500) None])
               (PlaceBid s load_id amount message)
          = run db_open [PlaceBid bidder_a 1 (Some amount_500) None])
       /\ serve (place_bid s load_id (Some a) message)
                (run db_open [PlaceBid bidder_a 1 (Some amount_500) None])
          = (RedirectViewLoad load_id "You already have a pending bid on this load.",
             run db_open [PlaceBid bidder_a 1 (Some amount_500) None]).
Proof.
  apply (one_pending_bid db_open [PlaceBid bidder_a 1 (Some amount_500) None]).
  intros i j bi bj Hi. unfold db_open in Hi. cbn [bids] in Hi.
  rewrite lookup_empty in Hi. discriminate Hi.
Defined.

(** The second submission of the scenario. *)
Lemma scenario_duplicate_bid :
  serve (place_bid bidder_a 1 (Some amount_500) None)
        (run db_open [PlaceBid bidder_a 1 (Some amount_500) None])
  = (RedirectViewLoad 1 "You already have a pending bid on this load.",
     run db_open [PlaceBid bidder_a 1 (Some amount_500) None]).
Proof. vm_compute. reflexivity. Qed.

(** ** One accepted bid per load *)

Lemma accepted_inv_step (d : db) (r : request) :
  accepted_inv d -> accepted_inv (step d r).
Proof.
  intros [Hone Htr].
  destruct r as [s load_id amount message | s bid_id | s bid_id | s load_id status].
  - destruct (step_place_bid_cases d s load_id amount message)
      as [-> | (uid & a & Hu & Hrole & -> & Hle & Hnan & Hsel & Hrng)]; [done|].
    unfold step. simpl. rewrite (serve_place_bid d s uid) by done. simpl.
    assert (forall k bk,
              <[next_bid_id d := BidRow load_id uid a message "pending"]> (bids d) !! k
              = Some bk ->
              b_status bk = "accepted" -> bids d !! k = Some bk) as Hold.
    { intros k bk Hk Hacc. destruct (decide (k = next_bid_id d)) as [->|Hne].
      - rewrite lookup_insert_eq in Hk. by injection Hk as <-.
      - by rewrite lookup_insert_ne in Hk. }
    split.
    + intros i j bi bj Hi Hj Hai Haj Hload. simpl in Hi, Hj.
      apply (Hone i j bi bj); auto.
    + intros i bi l Hi Hai Hl. simpl in Hi, Hl. apply (Htr i bi l); auto.
  - destruct (step_accept_bid_cases d s bid_id) as [-> | (b & l & Hb & Hl & Hauth)]; [done|].
    unfold step. simpl. rewrite (serve_accept_bid d s bid_id b l) by done. simpl.
    assert (forall k bk,
              map_imap (fun k bk =>
                  Some (if bool_decide (b_load_id bk = b_load_id b) && bool_decide (k ≠ bid_id)
                        then set_bid_status "rejected" bk else bk))
                (alter (set_bid_status "accepted") bid_id (bids d)) !! k = Some bk ->
              b_status bk = "accepted" ->
              (k = bid_id /\ bk = set_bid_status "accepted" b)
              \/ (k ≠ bid_id /\ b_load_id bk ≠ b_load_id b /\ bids d !! k = Some bk)) as Hrows.
    { intros k bk Hk Hacc. rewrite lookup_bids_after_accept in Hk.
      destruct (bids d !! k) as [bk0|] eqn:Hk0; simpl in Hk; [|done]. injection Hk as <-.
      destruct (decide (k = bid_id)) as [->|Hne].
      - left. split; [done|]. congruence.
      - destruct (decide (b_load_id bk0 = b_load_id b)); [done|]. by right. }
    split.
    + intros i j bi bj Hi Hj Hai Haj Hload. simpl in Hi, Hj.
      destruct (Hrows i bi Hi Hai) as [[-> ->] | (Hi' & Hli & Hi0)];
        destruct (Hrows j bj Hj Haj) as [[-> ->] | (Hj' & Hlj & Hj0)].
      * done.
      * simpl in Hload. congruence.
      * simpl in Hload. congruence.
      * by apply (Hone i j bi bj).
    + intros i bi l' Hi Hai Hl'. simpl in Hi, Hl'.
      destruct (Hrows i bi Hi Hai) as [[-> ->] | (Hi' & Hli & Hi0)].
      * simpl in Hl'. rewrite lookup_alter_eq, Hl in Hl'. simpl in Hl'.
        by injection Hl' as <-.
      * rewrite lookup_alter_ne in Hl' by done. by apply (Htr i bi l').
  - destruct (step_reject_bid_cases d s bid_id) as [-> | (b & l & Hb & Hl & Hauth)]; [done|].
    unfold step. simpl. rewrite (serve_reject_bid d s bid_id b l) by done. simpl.
    assert (forall k bk,
              <[bid_id := set_bid_status "rejected" b]> (bids d) !! k = Some bk ->
              b_status bk = "accepted" -> bids d !! k = Some bk) as Hold.
    { intros k bk Hk Hacc. destruct (decide (k = bid_id)) as [->|Hne].
      - rewrite lookup_insert_eq in Hk. by injection Hk as <-.
      - by rewrite lookup_insert_ne in Hk. }
    split.
    + intros i j bi bj Hi Hj Hai Haj Hload. simpl in Hi, Hj.
      apply (Hone i j bi bj); auto.
    + intros i bi l' Hi Hai Hl'. simpl in Hi, Hl'. apply (Htr i bi l'); auto.
  - destruct (step_update_status_cases d s load_id status)
      as [-> | (l & Hl & Hauth & Hst)]; [done|].
    unfold step. simpl. rewrite (serve_update_status d s load_id status l) by done. simpl.
    split; [exact Hone|].
    intros i bi l' Hi Hai Hl'. simpl in Hi, Hl'.
    destruct (decide (b_load_id bi = load_id)) as [Heq|Hne].
    + rewrite Heq, lookup_insert_eq in Hl'. injection Hl' as <-. simpl.
      apply (Htr i bi l); [done | done | by rewrite Heq].
    + rewrite lookup_insert_ne in Hl' by done. by apply (Htr i bi l').
Qed.

(** C7: from a state where every load has at most one accepted bid, and
    the trucker of that bid is the load's, every sequence of requests
    leads to such a state. *)
Theorem one_accepted_bid (d : db) (rs : list request) :
  accepted_inv d -> accepted_inv (run d rs).
Proof.
  revert d. induction rs as [|r rs IH]; intros d Hinv; [done|].
  simpl. apply IH. by apply accepted_inv_step.
Qed.

Lemma one_accepted_bid_witness :
  accepted_inv (run db_open [PlaceBid bidder_a 1 (Some amount_500) None;
                             PlaceBid bidder_b 1 (Some amount_450) None;
                             AcceptBid poster 1; AcceptBid poster 2;
                             UpdateStatus poster 1 "in_transit"]).
Proof.
  apply (one_accepted_bid db_open).
  split.
  - intros i j bi bj Hi. unfold db_open in Hi. cbn [bids] in Hi.
    rewrite lookup_empty in Hi. discriminate Hi.
  - intros i bi l Hi. unfold db_open in Hi. cbn [bids] in Hi.
    rewrite lookup_empty in Hi. discriminate Hi.
Defined.

(** ** Rejecting a bid *)

(** C8: [reject_bid] by the poster or an admin rewrites the status of
    the one bid to rejected; the [loads] table (status and trucker of
    every load), every other bid and the id counter are what they
    were. *)
Theorem reject_bid_frame (d : db) (s : session) (bid_id : nat) (b : bid_row) (l : load_row) :
  bids d !! bid_id = Some b ->
  loads d !! b_load_id b = Some l ->
  authorized s (l_shipper_id l) ->
  exists d',
    serve (reject_bid s bid_id) d = (RedirectViewLoad (b_load_id b) "Bid rejected.", d')
    /\ bids d' !! bid_id
       = Some (BidRow (b_load_id b) (b_trucker_id b) (b_amount b) (b_message b) "rejected")
    /\ (forall k, k ≠ bid_id -> bids d' !! k = bids d !! k)
    /\ loads d' = loads d
    /\ bids_seq d' = bids_seq d.
Proof.
  intros Hb Hl Hauth. eexists. split; [by apply (serve_reject_bid d s bid_id b l)|].
  simpl. repeat split.
  - by rewrite lookup_insert_eq.
  - intros k Hne. by rewrite lookup_insert_ne.
Qed.

Lemma reject_bid_frame_witness :
  exists d',
    serve (reject_bid poster 2) db_two_bids = (RedirectViewLoad 1 "Bid rejected.", d')
    /\ bids d' !! 2 = Some (bid_b "rejected")
    /\ (forall k, k ≠ 2 -> bids d' !! k = bids db_two_bids !! k)
    /\ loads d' = loads db_two_bids
    /\ bids_seq d' = 2.
Proof.
  apply (reject_bid_frame db_two_bids poster 2
           (bid_b "pending") (LoadRow 10 info_1 "open" None)).
  - reflexivity.
  - reflexivity.
  - exists 10. split; [reflexivity | left; reflexivity].
Defined.

(** C10: [reject_bid] does not look at the status of the bid: pending,
    accepted or rejected, an authorized call succeeds and the bid is
    rejected afterwards.  When the bid was the accepted one of an
    assigned load, the load row stays as it was -- assigned, to the
    bid's trucker -- and no bid of the load is accepted any more. *)
Theorem reject_bid_any_status (d : db) (s : session) (bid_id : nat)
    (b : bid_row) (l : load_row) :
  bids d !! bid_id = Some b ->
  loads d !! b_load_id b = Some l ->
  authorized s (l_shipper_id l) ->
  exists d',
    serve (reject_bid s bid_id) d = (RedirectViewLoad (b_load_id b) "Bid rejected.", d')
    /\ b_status <$> bids d' !! bid_id = Some "rejected"
    /\ (accepted_inv d -> b_status b = "accepted" -> l_status l = "assigned" ->
        loads d' !! b_load_id b = Some l
        /\ l_trucker_id l = Some (b_trucker_id b)
        /\ forall k bk, bids d' !! k = Some bk -> b_load_id bk = b_load_id b ->
                        b_status bk ≠ "accepted").
Proof.
  intros Hb Hl Hauth. eexists. split; [by apply (serve_reject_bid d s bid_id b l)|].
  simpl. split; [by rewrite lookup_insert_eq|].
  intros [Hone Htr] Hacc _. split; [done|]. split; [by apply (Htr bid_id b l)|].
  intros k bk Hk Hload Hk_acc. destruct (decide (k = bid_id)) as [->|Hne].
  - rewrite lookup_insert_eq in Hk. by injection Hk as <-.
  - rewrite lookup_insert_ne in Hk by done.
    apply Hne. by apply (Hone k bid_id bk b).
Qed.

Lemma reject_bid_any_status_witness :
  exists d',
    serve (reject_bid poster 1) db_assigned = (RedirectViewLoad 1 "Bid rejected.", d')
    /\ b_status <$> bids d' !! 1 = Some "rejected"
    /\ (accepted_inv db_assigned -> b_status (bid_a "accepted") = "accepted" ->
        l_status (LoadRow 10 info_1 "assigned" (Some 20)) = "assigned" ->
        loads d' !! 1 = Some (LoadRow 10 info_1 "assigned" (Some 20))
        /\ Some 20 = Some 20
        /\ forall k bk, bids d' !! k = Some bk -> b_load_id bk = 1 ->
                        b_status bk ≠ "accepted").
Proof.
  apply (reject_bid_any_status db_assigned poster 1
           (bid_a "accepted") (LoadRow 10 info_1 "assigned" (Some 20))).
  - reflexivity.
  - reflexivity.
  - exists 10. split; [reflexivity | left; reflexivity].
Defined.

(** The accepted bid of the scenario, rejected: the load keeps status
    assigned and trucker 20, and both bids are rejected. *)
Lemma scenario_reject_accepted :
  serve (reject_bid poster 1) db_assigned
  = (RedirectViewLoad 1 "Bid rejected.",
     Db {[ 1 := LoadRow 10 info_1 "assigned" (Some 20) ]}
        {[ 1 := bid_a "rejected"; 2 := bid_b "rejected" ]} 2).
Proof. vm_compute. reflexivity. Qed.

(** ** Two acceptances, one after the other

    [accept_bid] holds no check that a second call could fail: served
    one after the other in either order, both calls on the two pending
    bids of the open load succeed, and the later one decides the
    assignee. *)
Lemma scenario_accept_both_orders :
  (serve (accept_bid poster 1) db_two_bids).1
    = RedirectViewLoad 1 "Bid accepted and load assigned."
  /\ serve (accept_bid poster 2) (step db_two_bids (AcceptBid poster 1))
     = (RedirectViewLoad 1 "Bid accepted and load assigned.", db_reassigned)
  /\ (serve (accept_bid poster 2) db_two_bids).1
     = RedirectViewLoad 1 "Bid accepted and load assigned."
  /\ serve (accept_bid poster 1) (step db_two_bids (AcceptBid poster 2))
     = (RedirectViewLoad 1 "Bid accepted and load assigned.", db_assigned).
Proof. repeat split; vm_compute; reflexivity. Qed.

(** C9 (as the code has it): two [accept_bid] calls on distinct pending
    bids of the same open load, served one after the other.  Both
    succeed -- no call is refused because the load is no longer open.
    The load ends assigned to the trucker of the bid accepted last, that
    bid is accepted and every other bid of the load, the one accepted
    first included, is rejected.  The statement is the same with the
    two calls exchanged, so it holds for either order. *)
Theorem serial_accepts_both_succeed (d : db) (s1 s2 : session) (bid1 bid2 : nat)
    (b1 b2 : bid_row) (l : load_row) :
  bid1 ≠ bid2 ->
  bids d !! bid1 = Some b1 -> bids d !! bid2 = Some b2 ->
  b_load_id b2 = b_load_id b1 ->
  b_status b1 = "pending" -> b_status b2 = "pending" ->
  loads d !! b_load_id b1 = Some l -> l_status l = "open" ->
  authorized s1 (l_shipper_id l) -> authorized s2 (l_shipper_id l) ->
  exists d1 d2,
    serve (accept_bid s1 bid1) d
      = (RedirectViewLoad (b_load_id b1) "Bid accepted and load assigned.", d1)
    /\ serve (accept_bid s2 bid2) d1
       = (RedirectViewLoad (b_load_id b1) "Bid accepted and load assigned.", d2)
    /\ loads d2 !! b_load_id b1
       = Some (LoadRow (l_shipper_id l) (l_info l) "assigned" (Some (b_trucker_id b2)))
    /\ bids d2 !! bid2 = Some (set_bid_status "accepted" b2)
    /\ (forall k bk, k ≠ bid2 -> bids d !! k = Some bk -> b_load_id bk = b_load_id b1 ->
           bids d2 !! k = Some (set_bid_status "rejected" bk)).
Proof.
  intros Hne Hb1 Hb2 Hsame _ _ Hl _ Hauth1 Hauth2.
  destruct (accept_bid_effect d s1 bid1 b1 l Hb1 Hl Hauth1)
    as (d1 & Hserve1 & Hacc1 & Hrej1 & _ & _ & Hload1 & _).
  assert (bids d1 !! bid2 = Some (set_bid_status "rejected" b2)) as Hb2'
    by (apply Hrej1; [by intros -> | done | done]).
  destruct (accept_bid_effect d1 s2 bid2 (set_bid_status "rejected" b2)
              (set_load_assigned (b_trucker_id b1) l))
    as (d2 & Hserve2 & Hacc2 & Hrej2 & _ & _ & Hload2 & _);
    [done | simpl; by rewrite Hsame | done |].
  simpl in Hserve2, Hload2, Hrej2. rewrite Hsame in Hserve2, Hload2.
  exists d1, d2. split; [done|]. split; [done|]. split; [done|]. split; [done|].
  intros k bk Hk Hkb Hkl.
  destruct (decide (k = bid1)) as [->|Hk1].
  - assert (bk = b1) as -> by congruence.
    by rewrite (Hrej2 bid1 (set_bid_status "accepted" b1) Hk Hacc1).
  - rewrite (Hrej2 k (set_bid_status "rejected" bk) Hk);
      [done | by apply Hrej1 | simpl; congruence].
Qed.

Lemma serial_accepts_both_succeed_witness :
  exists d1 d2,
    serve (accept_bid poster 1) db_two_bids
      = (RedirectViewLoad 1 "Bid accepted and load assigned.", d1)
    /\ serve (accept_bid poster 2) d1
       = (RedirectViewLoad 1 "Bid accepted and load assigned.", d2)
    /\ loads d2 !! 1 = Some (LoadRow 10 info_1 "assigned" (Some 21))
    /\ bids d2 !! 2 = Some (bid_b "accepted")
    /\ (forall k bk, k ≠ 2 -> bids db_two_bids !! k = Some bk -> b_load_id bk = 1 ->
           bids d2 !! k = Some (set_bid_status "rejected" bk)).
Proof.
  apply (serial_accepts_both_succeed db_two_bids poster poster 1 2
           (bid_a "pending") (bid_b "pending") (LoadRow 10 info_1 "open" None)).
  - lia.
  - reflexivity.
  - reflexivity.
  - reflexivity.
  - reflexivity.
  - reflexivity.
  - reflexivity.
  - reflexivity.
  - exists 10. split; [reflexivity | left; reflexivity].
  - exists 10. split; [reflexivity | left; reflexivity].
Defined.

(** C9 fails as stated: bids 1 and 2 are distinct pending bids of the
    open load 1, and the poster accepts both.  Whichever call is served
    first, the other one succeeds as well: it gets the same answer, and
    the load passes to its trucker. *)
Lemma accept_loser_counterexample :
  bids db_two_bids !! 1 = Some (bid_a "pending")
  /\ bids db_two_bids !! 2 = Some (bid_b "pending")
  /\ loads db_two_bids !! 1 = Some (LoadRow 10 info_1 "open" None)
  /\ authorized poster 10
  /\ serve (accept_bid poster 1) db_two_bids
     = (RedirectViewLoad 1 "Bid accepted and load assigned.", db_assigned)
  /\ serve (accept_bid poster 2) db_assigned
     = (RedirectViewLoad 1 "Bid accepted and load assigned.", db_reassigned)
  /\ serve (accept_bid poster 2) db_two_bids
     = (RedirectViewLoad 1 "Bid accepted and load assigned.", db_reassigned)
  /\ serve (accept_bid poster 1) db_reassigned
     = (RedirectViewLoad 1 "Bid accepted and load assigned.", db_assigned).
Proof.
  split; [reflexivity|]. split; [reflexivity|]. split; [reflexivity|].
  split; [exact authorized_poster|].
  repeat split; vm_compute; reflexivity.
Qed.

(** * Further properties of the handlers *)

(** ** Ids and the 64 bits of SQLite *)

Lemma sqlite_int_true (n : nat) : sqlite_int n = true <-> (N.of_nat n < 2 ^ 63)%N.
Proof. apply N.ltb_lt. Qed.

Lemma sqlite_int_false (n : nat) : sqlite_int n = false <-> (2 ^ 63 <= N.of_nat n)%N.
Proof. apply N.ltb_ge. Qed.

(** The first id that cannot be bound. *)
Example sqlite_int_bound :
  sqlite_int 7 = true /\ sqlite_int (N.to_nat (2 ^ 63)) = false.
Proof.
  split; [reflexivity|]. apply sqlite_int_false. rewrite N2Nat.id. reflexivity.
Qed.

(** ** Refused requests *)

(** X1: without ["user_id"] in the session, each of the four handlers
    redirects to the login page and the database stays as it is. *)
Theorem login_gate (d : db) (r : request) :
  user_id (request_session r) = None ->
  serve (handler r) d = (RedirectLogin, d).
Proof.
  intros Hu.
  destruct r as [s load_id amount message | s bid_id | s bid_id | s load_id status];
    simpl in Hu; simpl;
    [unfold place_bid | unfold accept_bid | unfold reject_bid | unfold update_status];
    run_handler; by rewrite Hu.
Qed.

Lemma login_gate_witness :
  serve (handler (AcceptBid (Session None (Some "admin")) 1)) db_two_bids
  = (RedirectLogin, db_two_bids).
Proof.
  apply (login_gate db_two_bids (AcceptBid (Session None (Some "admin")) 1)).
  reflexivity.
Defined.

(** X2: [place_bid] is for truckers and admins: a logged-in session
    with any other role, or with none, gets 403 before the amount or
    the database is looked at. *)
Theorem place_bid_role_gate (d : db) (s : session) (uid load_id : nat)
    (amount : option spec_float) (message : option string) :
  user_id s = Some uid ->
  role s ≠ Some "trucker" -> role s ≠ Some "admin" ->
  serve (place_bid s load_id amount message) d = (Abort 403, d).
Proof.
  intros Hu Ht Ha. unfold place_bid. run_handler. rewrite Hu.
  assert (bool_decide (role s ∉ [Some "trucker"]) && bool_decide (role s ≠ Some "admin")
          = true) as ->; [|done].
  apply andb_true_iff. split; apply bool_decide_eq_true; [|done].
  intros Hin. apply list_elem_of_singleton in Hin. done.
Qed.

Lemma place_bid_role_gate_witness :
  serve (place_bid poster 1 (Some amount_450) None) db_two_bids = (Abort 403, db_two_bids).
Proof.
  apply (place_bid_role_gate db_two_bids poster 10 1 (Some amount_450) None).
  - reflexivity.
  - simpl. discriminate.
  - simpl. discriminate.
Defined.

(** X3: an amount that [float] could not read, or one that is zero or
    negative, is answered "Enter a valid bid amount." and nothing is
    written -- also when the caller already has a pending bid, since
    the amount is tested first. *)
Theorem place_bid_invalid_amount (d : db) (s : session) (uid load_id : nat)
    (amount : option spec_float) (message : option string) :
  user_id s = Some uid ->
  role s = Some "trucker" \/ role s = Some "admin" ->
  amount = None \/ (exists a, amount = Some a /\ le_zero a = true) ->
  serve (place_bid s load_id amount message) d
  = (RedirectViewLoad load_id "Enter a valid bid amount.", d).
Proof.
  intros Hu Hrole Hamt. apply trucker_check_false_iff in Hrole. simpl in Hrole.
  unfold place_bid. run_handler. rewrite Hu, Hrole.
  destruct Hamt as [-> | (a & -> & Hle)]; simpl; [done|]. by rewrite Hle.
Qed.

Lemma place_bid_invalid_amount_witness :
  serve (place_bid bidder_a 1 (Some (S754_finite true 500 0)) None) db_two_bids
  = (RedirectViewLoad 1 "Enter a valid bid amount.", db_two_bids).
Proof.
  apply (place_bid_invalid_amount db_two_bids bidder_a 20 1
           (Some (S754_finite true 500 0)) None).
  - reflexivity.
  - left. reflexivity.
  - right. exists (S754_finite true 500 0). split; reflexivity.
Defined.

(** X4: [accept_bid] and [reject_bid] write nothing when the bid does
    not exist, and also when the bid exists but its load does not (the
    join finds no row) -- for admins too.  The answer is 404 when the
    bid id fits in 64 bits; a larger id cannot be bound to the
    [SELECT], which raises [OverflowError], and nobody catches it. *)
Theorem resolve_not_found (d : db) (s : session) (uid bid_id : nat) :
  user_id s = Some uid ->
  bids d !! bid_id = None
  \/ (exists b, bids d !! bid_id = Some b /\ loads d !! b_load_id b = None) ->
  serve (accept_bid s bid_id) d
  = (if sqlite_int bid_id then Abort 404 else Unhandled OverflowError, d)
  /\ serve (reject_bid s bid_id) d
     = (if sqlite_int bid_id then Abort 404 else Unhandled OverflowError, d).
Proof.
  intros Hu Hmiss.
  assert (lookup_bid_join bid_id d = None) as Hsel.
  { unfold lookup_bid_join. destruct Hmiss as [-> | (b & -> & Hl)]; simpl; [done|].
    by rewrite Hl. }
  split; [unfold accept_bid | unfold reject_bid]; run_handler; rewrite Hu; simpl;
    rewrite Hsel; by destruct (sqlite_int bid_id).
Qed.

Lemma resolve_not_found_witness :
  serve (accept_bid poster 7) db_two_bids = (Abort 404, db_two_bids)
  /\ serve (reject_bid poster 7) db_two_bids = (Abort 404, db_two_bids).
Proof.
  apply (resolve_not_found db_two_bids poster 10 7).
  - reflexivity.
  - left. reflexivity.
Defined.

(** X5: a logged-in user who is neither the poster of the load nor an
    admin gets 403 from [accept_bid], [reject_bid] and [update_status],
    and nothing is written; the bidder cannot accept their own bid. *)
Theorem resolve_forbidden (d : db) (s : session) (uid bid_id : nat) (b : bid_row)
    (l : load_row) (status : string) :
  user_id s = Some uid ->
  bids d !! bid_id = Some b ->
  loads d !! b_load_id b = Some l ->
  uid ≠ l_shipper_id l -> role s ≠ Some "admin" ->
  status ∈ status_names ->
  serve (accept_bid s bid_id) d = (Abort 403, d)
  /\ serve (reject_bid s bid_id) d = (Abort 403, d)
  /\ serve (update_status s (b_load_id b) status) d = (Abort 403, d).
Proof.
  intros Hu Hb Hl Hne Hrole Hst.
  assert (bool_decide (uid ≠ l_shipper_id l) && bool_decide (role s ≠ Some "admin") = true)
    as Hf by (apply andb_true_iff; split; by apply bool_decide_eq_true).
  split; [|split].
  - unfold accept_bid. run_handler. rewrite Hu.
    unfold lookup_bid_join. simpl. rewrite Hb. simpl. rewrite Hl. simpl. by rewrite Hf.
  - unfold reject_bid. run_handler. rewrite Hu.
    unfold lookup_bid_join. simpl. rewrite Hb. simpl. rewrite Hl. simpl. by rewrite Hf.
  - unfold update_status. run_handler. rewrite Hu.
    rewrite (bool_decide_eq_false_2 (status ∉ status_names)) by auto. simpl.
    unfold lookup_shipper. rewrite Hl. simpl. by rewrite Hf.
Qed.

Lemma resolve_forbidden_witness :
  serve (accept_bid bidder_a 1) db_two_bids = (Abort 403, db_two_bids)
  /\ serve (reject_bid bidder_a 1) db_two_bids = (Abort 403, db_two_bids)
  /\ serve (update_status bidder_a 1 "delivered") db_two_bids = (Abort 403, db_two_bids).
Proof.
  apply (resolve_forbidden db_two_bids bidder_a 20 1
           (bid_a "pending") (LoadRow 10 info_1 "open" None) "delivered").
  - reflexivity.
  - reflexivity.
  - reflexivity.
  - simpl. lia.
  - simpl. discriminate.
  - compute_done.
Defined.

(** X6: [update_status] tests the status name first: a name outside the
    five gets 400 whether or not the load exists or the caller may
    change it.  With one of the five names, a load id that does not
    exist gets 404 when it fits in 64 bits; a larger id cannot be bound
    to the [SELECT], which raises [OverflowError], and nobody catches
    it.  Nothing is written in any of these cases. *)
Theorem update_status_errors (d : db) (s : session) (uid load_id : nat) (status : string) :
  user_id s = Some uid ->
  (status ∉ status_names -> serve (update_status s load_id status) d = (Abort 400, d))
  /\ (status ∈ status_names -> loads d !! load_id = None ->
      serve (update_status s load_id status) d
      = (if sqlite_int load_id then Abort 404 else Unhandled OverflowError, d)).
Proof.
  intros Hu. split.
  - intros Hst. unfold update_status. run_handler. rewrite Hu.
    by rewrite (bool_decide_eq_true_2 (status ∉ status_names)).
  - intros Hst Hl. unfold update_status. run_handler. rewrite Hu.
    rewrite (bool_decide_eq_false_2 (status ∉ status_names)) by auto. simpl.
    unfold lookup_shipper. rewrite Hl. simpl.
    by destruct (sqlite_int load_id).
Qed.

Lemma update_status_errors_witness :
  ("closed" ∉ status_names ->
   serve (update_status bidder_a 9 "closed") db_two_bids = (Abort 400, db_two_bids))
  /\ ("closed" ∈ status_names -> loads db_two_bids !! 9 = None ->
      serve (update_status bidder_a 9 "closed") db_two_bids = (Abort 404, db_two_bids)).
Proof.
  apply (update_status_errors db_two_bids bidder_a 20 9 "closed"). reflexivity.
Defined.

(** ** How one request can change a row *)

(** A row of [bids] is never deleted; a request leaves it as it is or
    rewrites its status to accepted or rejected. *)
Lemma step_bid_kept (d : db) (r : request) (k : nat) (b : bid_row) :
  bids d !! k = Some b ->
  bids (step d r) !! k = Some b
  \/ bids (step d r) !! k = Some (set_bid_status "accepted" b)
  \/ bids (step d r) !! k = Some (set_bid_status "rejected" b).
Proof.
  intros Hk. destruct r as [s load_id amount message | s bid_id | s bid_id | s load_id status].
  - destruct (step_place_bid_cases d s load_id amount message)
      as [-> | (uid & a & Hu & Hrole & -> & Hle & Hnan & Hsel & Hrng)]; [by left|].
    unfold step. simpl. rewrite (serve_place_bid d s uid) by done. simpl.
    left. rewrite lookup_insert_ne; [done|].
    intros <-. by rewrite next_bid_id_fresh in Hk.
  - destruct (step_accept_bid_cases d s bid_id) as [-> | (b0 & l & Hb & Hl & Hauth)];
      [by left|].
    unfold step. simpl. rewrite (serve_accept_bid d s bid_id b0 l) by done. simpl.
    rewrite lookup_bids_after_accept, Hk. simpl.
    destruct (decide (k = bid_id)); [by right; left|].
    destruct (decide (b_load_id b = b_load_id b0)); [by right; right | by left].
  - destruct (step_reject_bid_cases d s bid_id) as [-> | (b0 & l & Hb & Hl & Hauth)];
      [by left|].
    unfold step. simpl. rewrite (serve_reject_bid d s bid_id b0 l) by done. simpl.
    destruct (decide (k = bid_id)) as [->|Hne].
    + right; right. rewrite lookup_insert_eq. congruence.
    + left. by rewrite lookup_insert_ne.
  - destruct (step_update_status_cases d s load_id status)
      as [-> | (l & Hl & Hauth & Hst)]; [by left|].
    unfold step. simpl. rewrite (serve_update_status d s load_id status l) by done.
    by left.
Qed.

(** A row of [bids] that appears was inserted by [place_bid]: it has
    the next id, status pending, and the caller as its trucker. *)
Lemma step_bid_new (d : db) (r : request) (k : nat) (b : bid_row) :
  bids d !! k = None ->
  bids (step d r) !! k = Some b ->
  k = next_bid_id d /\ b_status b = "pending"
  /\ user_id (request_session r) = Some (b_trucker_id b).
Proof.
  intros Hk Hk'.
  destruct r as [s load_id amount message | s bid_id | s bid_id | s load_id status].
  - destruct (step_place_bid_cases d s load_id amount message)
      as [Heq | (uid & a & Hu & Hrole & -> & Hle & Hnan & Hsel & Hrng)]; [congruence|].
    unfold step in Hk'. simpl in Hk'. rewrite (serve_place_bid d s uid) in Hk' by done.
    simpl in Hk'. destruct (decide (k = next_bid_id d)) as [->|Hne].
    + rewrite lookup_insert_eq in Hk'. injection Hk' as <-. by simpl.
    + rewrite lookup_insert_ne in Hk' by done. congruence.
  - destruct (step_accept_bid_cases d s bid_id) as [Heq | (b0 & l & Hb & Hl & Hauth)];
      [congruence|].
    unfold step in Hk'. simpl in Hk'.
    rewrite (serve_accept_bid d s bid_id b0 l) in Hk' by done. simpl in Hk'.
    by rewrite lookup_bids_after_accept, Hk in Hk'.
  - destruct (step_reject_bid_cases d s bid_id) as [Heq | (b0 & l & Hb & Hl & Hauth)];
      [congruence|].
    unfold step in Hk'. simpl in Hk'.
    rewrite (serve_reject_bid d s bid_id b0 l) in Hk' by done. simpl in Hk'.
    rewrite lookup_insert_ne in Hk' by congruence. congruence.
  - destruct (step_update_status_cases d s load_id status)
      as [Heq | (l & Hl & Hauth & Hst)]; [congruence|].
    unfold step in Hk'. simpl in Hk'.
    rewrite (serve_update_status d s load_id status l) in Hk' by done. simpl in Hk'.
    congruence.
Qed.

(** A row of [loads] is never deleted; a request leaves it as it is,
    assigns it to a trucker, or rewrites its status with one of the five
    names.  The poster and the descriptive columns stay. *)
Lemma step_load_kept (d : db) (r : request) (k : nat) (l : load_row) :
  loads d !! k = Some l ->
  exists st t,
    loads (step d r) !! k = Some (LoadRow (l_shipper_id l) (l_info l) st t)
    /\ ((st = l_status l /\ t = l_trucker_id l)
        \/ (st = "assigned" /\ is_Some t)
        \/ (st ∈ status_names /\ t = l_trucker_id l)).
Proof.
  intros Hk.
  assert (exists st t,
             loads d !! k = Some (LoadRow (l_shipper_id l) (l_info l) st t)
             /\ ((st = l_status l /\ t = l_trucker_id l)
                 \/ (st = "assigned" /\ is_Some t)
                 \/ (st ∈ status_names /\ t = l_trucker_id l))) as Hsame.
  { exists (l_status l), (l_trucker_id l). split; [by destruct l | by left]. }
  destruct r as [s load_id amount message | s bid_id | s bid_id | s load_id status].
  - destruct (step_place_bid_cases d s load_id amount message)
      as [-> | (uid & a & Hu & Hrole & -> & Hle & Hnan & Hsel & Hrng)]; [done|].
    unfold step. simpl. by rewrite (serve_place_bid d s uid) by done.
  - destruct (step_accept_bid_cases d s bid_id) as [-> | (b0 & l0 & Hb & Hl & Hauth)];
      [done|].
    unfold step. simpl. rewrite (serve_accept_bid d s bid_id b0 l0) by done. simpl.
    destruct (decide (k = b_load_id b0)) as [->|Hne].
    + rewrite lookup_alter_eq, Hk. simpl.
      exists "assigned", (Some (b_trucker_id b0)). split; [done|]. right; left. by split.
    + by rewrite lookup_alter_ne.
  - destruct (step_reject_bid_cases d s bid_id) as [-> | (b0 & l0 & Hb & Hl & Hauth)];
      [done|].
    unfold step. simpl. by rewrite (serve_reject_bid d s bid_id b0 l0) by done.
  - destruct (step_update_status_cases d s load_id status)
      as [-> | (l0 & Hl & Hauth & Hst)]; [done|].
    unfold step. simpl. rewrite (serve_update_status d s load_id status l0) by done. simpl.
    destruct (decide (k = load_id)) as [->|Hne].
    + rewrite lookup_insert_eq. assert (l0 = l) as -> by congruence.
      exists status, (l_trucker_id l). split; [done|]. right; right. by split.
    + by rewrite lookup_insert_ne.
Qed.

(** No request creates a row of [loads]. *)
Lemma step_load_none (d : db) (r : request) (k : nat) :
  loads d !! k = None -> loads (step d r) !! k = None.
Proof.
  intros Hk. destruct r as [s load_id amount message | s bid_id | s bid_id | s load_id status].
  - destruct (step_place_bid_cases d s load_id amount message)
      as [-> | (uid & a & Hu & Hrole & -> & Hle & Hnan & Hsel & Hrng)]; [done|].
    unfold step. simpl. by rewrite (serve_place_bid d s uid) by done.
  - destruct (step_accept_bid_cases d s bid_id) as [-> | (b0 & l0 & Hb & Hl & Hauth)];
      [done|].
    unfold step. simpl. rewrite (serve_accept_bid d s bid_id b0 l0) by done. simpl.
    rewrite lookup_alter_ne; [done | congruence].
  - destruct (step_reject_bid_cases d s bid_id) as [-> | (b0 & l0 & Hb & Hl & Hauth)];
      [done|].
    unfold step. simpl. by rewrite (serve_reject_bid d s bid_id b0 l0) by done.
  - destruct (step_update_status_cases d s load_id status)
      as [-> | (l0 & Hl & Hauth & Hst)]; [done|].
    unfold step. simpl. rewrite (serve_update_status d s load_id status l0) by done. simpl.
    rewrite lookup_insert_ne; [done | congruence].
Qed.

(** ** What no sequence of requests changes *)

(** X7: bids are never deleted, and the load, trucker, amount and
    message of a bid are written once: after any sequence of requests
    the row is still there with these four columns as they were; only
    its status can differ. *)
Theorem bid_columns_kept (d : db) (rs : list request) (k : nat) (b : bid_row) :
  bids d !! k = Some b ->
  exists st, bids (run d rs) !! k
             = Some (BidRow (b_load_id b) (b_trucker_id b) (b_amount b) (b_message b) st).
Proof.
  revert d b. induction rs as [|r rs IH]; intros d b Hk.
  - exists (b_status b). simpl. by destruct b.
  - simpl. destruct (step_bid_kept d r k b Hk) as [H | [H | H]];
      destruct (IH _ _ H) as [st Hst]; by exists st.
Qed.

Lemma bid_columns_kept_witness :
  exists st, bids (run db_two_bids [AcceptBid poster 2; RejectBid poster 2;
                                    UpdateStatus poster 1 "cancelled"]) !! 1
             = Some (BidRow 1 20 amount_500 None st).
Proof.
  apply (bid_columns_kept db_two_bids
           [AcceptBid poster 2; RejectBid poster 2; UpdateStatus poster 1 "cancelled"]
           1 (bid_a "pending")).
  reflexivity.
Defined.

Lemma step_load_columns (d : db) (r : request) (k : nat) :
  (fun l => (l_shipper_id l, l_info l)) <$> loads (step d r) !! k
  = (fun l => (l_shipper_id l, l_info l)) <$> loads d !! k.
Proof.
  destruct (loads d !! k) as [l|] eqn:Hk.
  - destruct (step_load_kept d r k l Hk) as (st & t & -> & _). done.
  - by rewrite (step_load_none d r k Hk).
Qed.

(** X8: the four handlers neither create nor delete loads, and never
    write the poster or the descriptive columns of a load: after any
    sequence of requests every load id holds these columns exactly as
    before, and an id without a load still has none. *)
Theorem load_columns_kept (d : db) (rs : list request) (k : nat) :
  (fun l => (l_shipper_id l, l_info l)) <$> loads (run d rs) !! k
  = (fun l => (l_shipper_id l, l_info l)) <$> loads d !! k.
Proof.
  revert d. induction rs as [|r rs IH]; intros d; [done|].
  simpl. rewrite IH. apply step_load_columns.
Qed.

(** X9: a bid that is accepted or rejected never becomes pending again,
    whatever requests follow. *)
Theorem resolved_bid_stays_resolved (d : db) (rs : list request) (k : nat) (b : bid_row) :
  bids d !! k = Some b ->
  b_status b ≠ "pending" ->
  exists b', bids (run d rs) !! k = Some b' /\ b_status b' ≠ "pending".
Proof.
  revert d b. induction rs as [|r rs IH]; intros d b Hk Hst.
  - by exists b.
  - simpl. destruct (step_bid_kept d r k b Hk) as [H | [H | H]];
      by apply (IH _ _ H).
Qed.

Lemma resolved_bid_stays_resolved_witness :
  exists b', bids (run db_assigned [RejectBid poster 1; PlaceBid bidder_b 1 (Some amount_450) None;
                                    AcceptBid poster 3]) !! 2 = Some b'
             /\ b_status b' ≠ "pending".
Proof.
  apply (resolved_bid_stays_resolved db_assigned
           [RejectBid poster 1; PlaceBid bidder_b 1 (Some amount_450) None; AcceptBid poster 3]
           2 (bid_b "rejected")).
  - reflexivity.
  - simpl. discriminate.
Defined.

Lemma statuses_valid_step (d : db) (r : request) :
  statuses_valid d -> statuses_valid (step d r).
Proof.
  intros [Hl Hb]. split.
  - intros k l' Hk'. destruct (loads d !! k) as [l|] eqn:Hk.
    + destruct (step_load_kept d r k l Hk) as (st & t & Heq & Hcase).
      rewrite Heq in Hk'. injection Hk' as <-. simpl.
      destruct Hcase as [[-> _] | [[-> _] | [Hst _]]];
        [by apply (Hl k l) | compute_done | done].
    + by rewrite (step_load_none d r k Hk) in Hk'.
  - intros k b' Hk'. destruct (bids d !! k) as [b|] eqn:Hk.
    + destruct (step_bid_kept d r k b Hk) as [H | [H | H]];
        rewrite H in Hk'; injection Hk' as <-;
        [by apply (Hb k b) | compute_done | compute_done].
    + destruct (step_bid_new d r k b' Hk Hk') as (_ & -> & _). compute_done.
Qed.

(** X10: the handlers only ever write statuses that the [CHECK]
    constraints of the schema admit: from a database whose load
    statuses are among the five names and whose bid statuses are
    pending, accepted or rejected, every sequence of requests leads to
    such a database. *)
Theorem statuses_valid_run (d : db) (rs : list request) :
  statuses_valid d -> statuses_valid (run d rs).
Proof.
  revert d. induction rs as [|r rs IH]; intros d Hv; [done|].
  simpl. apply IH. by apply statuses_valid_step.
Qed.

Lemma statuses_valid_run_witness :
  statuses_valid (run db_open [PlaceBid bidder_a 1 (Some amount_500) None;
                               AcceptBid poster 1; UpdateStatus poster 1 "delivered"]).
Proof.
  apply (statuses_valid_run db_open).
  split.
  - intros k l Hk. unfold db_open in Hk. cbn [loads] in Hk.
    apply lookup_singleton_Some in Hk as [_ <-]. compute_done.
  - intros k b Hk. unfold db_open in Hk. cbn [bids] in Hk.
    rewrite lookup_empty in Hk. discriminate Hk.
Defined.

(** ** Bid ids *)

(** The insert that creates a row stores its id as the sequence value. *)
Lemma step_bid_new_seq (d : db) (r : request) (k : nat) (b : bid_row) :
  bids d !! k = None ->
  bids (step d r) !! k = Some b ->
  bids_seq (step d r) = k.
Proof.
  intros Hk Hk'. destruct (step_bid_new d r k b Hk Hk') as (-> & _).
  destruct r as [s load_id amount message | s bid_id | s bid_id | s load_id status].
  - destruct (step_place_bid_cases d s load_id amount message)
      as [Heq | (uid & a & Hu & Hrole & -> & Hle & Hnan & Hsel & Hrng)]; [congruence|].
    unfold step. simpl. by rewrite (serve_place_bid d s uid) by done.
  - destruct (step_accept_bid_cases d s bid_id) as [Heq | (b0 & l & Hb & Hl & Hauth)];
      [congruence|].
    unfold step in Hk'. simpl in Hk'.
    rewrite (serve_accept_bid d s bid_id b0 l) in Hk' by done. simpl in Hk'.
    by rewrite lookup_bids_after_accept, Hk in Hk'.
  - destruct (step_reject_bid_cases d s bid_id) as [Heq | (b0 & l & Hb & Hl & Hauth)];
      [congruence|].
    unfold step in Hk'. simpl in Hk'.
    rewrite (serve_reject_bid d s bid_id b0 l) in Hk' by done. simpl in Hk'.
    rewrite lookup_insert_ne in Hk' by congruence. congruence.
  - destruct (step_update_status_cases d s load_id status)
      as [Heq | (l & Hl & Hauth & Hst)]; [congruence|].
    unfold step in Hk'. simpl in Hk'.
    rewrite (serve_update_status d s load_id status l) in Hk' by done. simpl in Hk'.
    congruence.
Qed.

(** The sequence value never goes down. *)
Lemma step_bids_seq_le (d : db) (r : request) : bids_seq d <= bids_seq (step d r).
Proof.
  destruct r as [s load_id amount message | s bid_id | s bid_id | s load_id status].
  - destruct (step_place_bid_cases d s load_id amount message)
      as [-> | (uid & a & Hu & Hrole & -> & Hle & Hnan & Hsel & Hrng)]; [done|].
    unfold step. simpl. rewrite (serve_place_bid d s uid) by done. simpl.
    unfold next_bid_id. lia.
  - destruct (step_accept_bid_cases d s bid_id) as [-> | (b0 & l0 & Hb & Hl & Hauth)];
      [done|].
    unfold step. simpl. by rewrite (serve_accept_bid d s bid_id b0 l0) by done.
  - destruct (step_reject_bid_cases d s bid_id) as [-> | (b0 & l0 & Hb & Hl & Hauth)];
      [done|].
    unfold step. simpl. by rewrite (serve_reject_bid d s bid_id b0 l0) by done.
  - destruct (step_update_status_cases d s load_id status)
      as [-> | (l0 & Hl & Hauth & Hst)]; [done|].
    unfold step. simpl. by rewrite (serve_update_status d s load_id status l0) by done.
Qed.

Lemma bids_seq_step (d : db) (r : request) :
  bids_seq_inv d ->
  bids_seq_inv (step d r)
  /\ bids_seq d <= bids_seq (step d r)
  /\ forall k b, bids d !! k = None -> bids (step d r) !! k = Some b -> bids_seq d < k.
Proof.
  intros Hinv. pose proof (step_bids_seq_le d r) as Hle.
  split; [|split; [done|]].
  - intros k b' Hk'. destruct (bids d !! k) as [b|] eqn:Hk.
    + specialize (Hinv k b Hk). lia.
    + rewrite (step_bid_new_seq d r k b' Hk Hk'). lia.
  - intros k b Hk Hk'. destruct (step_bid_new d r k b Hk Hk') as (-> & _).
    unfold next_bid_id. lia.
Qed.

(** X11: bid ids are handed out in increasing order and never reused:
    if no bid id is above the stored sequence value, this is still so
    after any sequence of requests, the sequence value has not gone
    down, and every bid created on the way has an id above the sequence
    value at the start. *)
Theorem bid_ids_increase (d : db) (rs : list request) :
  bids_seq_inv d ->
  bids_seq_inv (run d rs)
  /\ bids_seq d <= bids_seq (run d rs)
  /\ forall k b, bids d !! k = None -> bids (run d rs) !! k = Some b -> bids_seq d < k.
Proof.
  revert d. induction rs as [|r rs IH]; intros d Hinv.
  - simpl. split; [done|]. split; [lia|]. intros k b Hk Hk'. congruence.
  - simpl. destruct (bids_seq_step d r Hinv) as (Hinv' & Hle & Hnew).
    destruct (IH (step d r) Hinv') as (Hinv'' & Hle' & Hnew').
    split; [done|]. split; [lia|].
    intros k b Hk Hk'. destruct (bids (step d r) !! k) as [b1|] eqn:Hk1.
    + by apply (Hnew k b1).
    + specialize (Hnew' k b Hk1 Hk'). lia.
Qed.

Lemma bid_ids_increase_witness :
  bids_seq_inv (run db_two_bids [RejectBid poster 1; PlaceBid bidder_a 1 (Some amount_500) None])
  /\ bids_seq db_two_bids
     <= bids_seq (run db_two_bids
                    [RejectBid poster 1; PlaceBid bidder_a 1 (Some amount_500) None])
  /\ forall k b,
       bids db_two_bids !! k = None ->
       bids (run db_two_bids [RejectBid poster 1; PlaceBid bidder_a 1 (Some amount_500) None])
         !! k = Some b ->
       bids_seq db_two_bids < k.
Proof.
  apply (bid_ids_increase db_two_bids
           [RejectBid poster 1; PlaceBid bidder_a 1 (Some amount_500) None]).
  intros k b Hk. unfold db_two_bids in Hk. cbn [bids] in Hk. simpl.
  destruct (decide (k = 1)) as [->|H1]; [lia|].
  rewrite lookup_insert_ne in Hk by done.
  apply lookup_singleton_Some in Hk as [<- _]. lia.
Defined.

(** ** Replaying a request *)

(** X12: every request is idempotent: served a second time right after
    the first, it leaves the database as the first left it.  A replayed
    acceptance, rejection or status change writes the same values; a
    replayed bid meets the pending bid the first one inserted. *)
Theorem step_idempotent (d : db) (r : request) :
  step (step d r) r = step d r.
Proof.
  destruct r as [s load_id amount message | s bid_id | s bid_id | s load_id status].
  - destruct (step_place_bid_cases d s load_id amount message)
      as [Heq | (uid & a & Hu & Hrole & -> & Hle & Hnan & Hsel & Hrng)]; [by rewrite !Heq|].
    unfold step at 2 3. simpl. rewrite (serve_place_bid d s uid) by done. simpl.
    unfold step. simpl.
    destruct (lookup_pending_Some load_id uid
                (Db (loads d)
                    (<[next_bid_id d := BidRow load_id uid a message "pending"]> (bids d))
                    (next_bid_id d))
                (next_bid_id d) (BidRow load_id uid a message "pending")) as [j Hj].
    { simpl. by rewrite lookup_insert_eq. }
    { by repeat split. }
    by rewrite (serve_place_bid_duplicate _ s uid load_id j).
  - destruct (step_accept_bid_cases d s bid_id) as [Heq | (b & l & Hb & Hl & Hauth)];
      [by rewrite !Heq|].
    unfold step at 2 3. simpl. rewrite (serve_accept_bid d s bid_id b l) by done. simpl.
    unfold step. simpl.
    rewrite (serve_accept_bid _ s bid_id (set_bid_status "accepted" b)
               (set_load_assigned (b_trucker_id b) l)).
    + simpl. f_equal.
      * apply map_eq. intros k. destruct (decide (k = b_load_id b)) as [->|Hne].
        -- rewrite !lookup_alter_eq. by destruct (loads d !! b_load_id b).
        -- by rewrite !lookup_alter_ne.
      * apply map_eq. intros k. rewrite !lookup_bids_after_accept.
        destruct (bids d !! k) as [bk|]; [|done]. simpl. f_equal.
        destruct (decide (k = bid_id)); [done|].
        destruct (decide (b_load_id bk = b_load_id b)) as [He|Hne]; simpl.
        -- by rewrite decide_True.
        -- by rewrite decide_False.
    + simpl. rewrite lookup_bids_after_accept, Hb. simpl. by rewrite decide_True.
    + simpl. by rewrite lookup_alter_eq, Hl.
    + done.
  - destruct (step_reject_bid_cases d s bid_id) as [Heq | (b & l & Hb & Hl & Hauth)];
      [by rewrite !Heq|].
    unfold step at 2 3. simpl. rewrite (serve_reject_bid d s bid_id b l) by done. simpl.
    unfold step. simpl.
    rewrite (serve_reject_bid _ s bid_id (set_bid_status "rejected" b) l).
    + simpl. by rewrite insert_insert_eq.
    + simpl. by rewrite lookup_insert_eq.
    + done.
    + done.
  - destruct (step_update_status_cases d s load_id status)
      as [Heq | (l & Hl & Hauth & Hst)]; [by rewrite !Heq|].
    unfold step at 2 3. simpl.
    rewrite (serve_update_status d s load_id status l) by done. simpl.
    unfold step. simpl.
    rewrite (serve_update_status _ s load_id status (set_load_status status l)).
    + simpl. by rewrite insert_insert_eq.
    + simpl. by rewrite lookup_insert_eq.
    + done.
    + done.
Qed.

(** ** Frames *)

(** X13: a principal who is not authorized on a load -- not logged in,
    or neither its poster nor an admin -- cannot change it: whatever
    request they send, the row of the load and every bid on the load
    stay exactly as they were.  (They may add a bid of their own.) *)
Theorem unauthorized_cannot_touch (d : db) (r : request) (load_id : nat) (l : load_row) :
  loads d !! load_id = Some l ->
  ~ authorized (request_session r) (l_shipper_id l) ->
  loads (step d r) !! load_id = Some l
  /\ forall k b, bids d !! k = Some b -> b_load_id b = load_id ->
                 bids (step d r) !! k = Some b.
Proof.
  intros Hload Hno.
  destruct r as [s lid amount message | s bid_id | s bid_id | s lid status]; simpl in Hno.
  - destruct (step_place_bid_cases d s lid amount message)
      as [-> | (uid & a & Hu & Hrole & -> & Hle & Hnan & Hsel & Hrng)]; [done|].
    unfold step. simpl. rewrite (serve_place_bid d s uid) by done. simpl.
    split; [done|]. intros k b Hk _. rewrite lookup_insert_ne; [done|].
    intros <-. by rewrite next_bid_id_fresh in Hk.
  - destruct (step_accept_bid_cases d s bid_id) as [-> | (b0 & l0 & Hb & Hl & Hauth)];
      [done|].
    assert (b_load_id b0 ≠ load_id) as Hne by (intros Heq; rewrite Heq in Hl; congruence).
    unfold step. simpl. rewrite (serve_accept_bid d s bid_id b0 l0) by done. simpl.
    split; [by rewrite lookup_alter_ne|].
    intros k b Hk Hkl. rewrite lookup_bids_after_accept, Hk. simpl.
    rewrite decide_False by congruence. rewrite decide_False by congruence. done.
  - destruct (step_reject_bid_cases d s bid_id) as [-> | (b0 & l0 & Hb & Hl & Hauth)];
      [done|].
    assert (b_load_id b0 ≠ load_id) as Hne by (intros Heq; rewrite Heq in Hl; congruence).
    unfold step. simpl. rewrite (serve_reject_bid d s bid_id b0 l0) by done. simpl.
    split; [done|]. intros k b Hk Hkl. rewrite lookup_insert_ne; [done | congruence].
  - destruct (step_update_status_cases d s lid status)
      as [-> | (l0 & Hl & Hauth & Hst)]; [done|].
    assert (lid ≠ load_id) as Hne by (intros Heq; rewrite Heq in Hl; congruence).
    unfold step. simpl. rewrite (serve_update_status d s lid status l0) by done. simpl.
    split; [by rewrite lookup_insert_ne | done].
Qed.

Lemma unauthorized_cannot_touch_witness :
  loads (step db_two_bids (AcceptBid bidder_a 1)) !! 1 = Some (LoadRow 10 info_1 "open" None)
  /\ forall k b, bids db_two_bids !! k = Some b -> b_load_id b = 1 ->
                 bids (step db_two_bids (AcceptBid bidder_a 1)) !! k = Some b.
Proof.
  apply (unauthorized_cannot_touch db_two_bids (AcceptBid bidder_a 1) 1
           (LoadRow 10 info_1 "open" None)).
  - reflexivity.
  - simpl. intros (uid & Hu & [He | Hr]).
    + injection Hu as <-. discriminate He.
    + discriminate Hr.
Defined.

(** X14: [update_status] writes one column of one row: whatever the
    outcome, the [bids] table and the id counter are unchanged -- so
    the pending bids of a load that is cancelled stay pending -- every
    other load is unchanged, and the load itself keeps its poster, its
    descriptive columns and its trucker. *)
Theorem update_status_frame (d : db) (s : session) (load_id : nat) (status : string) :
  bids (step d (UpdateStatus s load_id status)) = bids d
  /\ bids_seq (step d (UpdateStatus s load_id status)) = bids_seq d
  /\ (forall k, k ≠ load_id ->
        loads (step d (UpdateStatus s load_id status)) !! k = loads d !! k)
  /\ (fun l => (l_shipper_id l, l_info l, l_trucker_id l))
       <$> loads (step d (UpdateStatus s load_id status)) !! load_id
     = (fun l => (l_shipper_id l, l_info l, l_trucker_id l)) <$> loads d !! load_id.
Proof.
  destruct (step_update_status_cases d s load_id status)
    as [-> | (l & Hl & Hauth & Hst)]; [done|].
  unfold step. simpl. rewrite (serve_update_status d s load_id status l) by done. simpl.
  repeat split.
  - intros k Hne. by rewrite lookup_insert_ne.
  - by rewrite lookup_insert_eq, Hl.
Qed.

(** ** When a bid is recorded *)

(** X15: [place_bid] changes the database exactly when the caller is
    logged in as a trucker or an admin, the amount was read, is above
    zero and is not a NaN, the caller has no pending bid on that load
    id, and the load id fits in 64 bits (a larger one cannot be bound
    to the statements).  Neither the existence nor the status of the
    load is part of the condition. *)
Theorem place_bid_inserts_iff (d : db) (s : session) (load_id : nat)
    (amount : option spec_float) (message : option string) :
  step d (PlaceBid s load_id amount message) ≠ d
  <-> exists uid a,
        user_id s = Some uid /\ (role s = Some "trucker" \/ role s = Some "admin")
        /\ amount = Some a /\ le_zero a = false /\ is_nan a = false
        /\ (forall i b, bids d !! i = Some b -> ~ pending_of load_id uid b)
        /\ sqlite_int load_id = true.
Proof.
  split.
  - intros Hne. destruct (step_place_bid_cases d s load_id amount message)
      as [Heq | (uid & a & Hu & Hrole & Ha & Hle & Hnan & Hsel & Hrng)]; [done|].
    exists uid, a. rewrite lookup_pending_None in Hsel. by repeat split.
  - intros (uid & a & Hu & Hrole & -> & Hle & Hnan & Hsel & Hrng).
    rewrite <- lookup_pending_None in Hsel.
    unfold step. simpl. rewrite (serve_place_bid d s uid) by done. simpl.
    intros Heq. apply (f_equal bids_seq) in Heq. simpl in Heq.
    unfold next_bid_id in Heq. lia.
Qed.

(** ** Accounts *)

Lemma is_at_true (c : Ascii.ascii) : is_at c = true <-> c = Ascii.ascii_of_nat 64.
Proof. apply Ascii.eqb_eq. Qed.

Lemma no_at_cons_at (local : string) :
  no_at (String (Ascii.ascii_of_nat 64) local) = false.
Proof. reflexivity. Qed.

Lemma is_at_at : is_at (Ascii.ascii_of_nat 64) = true.
Proof. reflexivity. Qed.

Lemma local_then_at_iff (s : string) :
  local_then_at s = true
  <-> exists local c rest,
        s = local ++ String (Ascii.ascii_of_nat 64) (String c rest)
        /\ no_at local = true /\ is_at c = false.
Proof.
  induction s as [|c0 s IH]; simpl.
  - split; [done|]. intros (local & c & rest & Heq & _). by destruct local.
  - destruct (is_at c0) eqn:Hc0.
    + apply is_at_true in Hc0 as ->. split.
      * destruct s as [|c' s']; [done|]. intros Hc'.
        exists "", c', s'. simpl. split; [done|]. split; [done|].
        by apply negb_true_iff.
      * intros (local & c & rest & Heq & Hlocal & Hc).
        destruct local as [|x local]; simpl in Heq.
        -- injection Heq as ->. by apply negb_true_iff.
        -- injection Heq as Hx _. subst x. by rewrite no_at_cons_at in Hlocal.
    + rewrite IH. split.
      * intros (local & c & rest & -> & Hlocal & Hc).
        exists (String c0 local), c, rest. simpl. rewrite Hc0, Hlocal. done.
      * intros (local & c & rest & Heq & Hlocal & Hc).
        destruct local as [|x local]; simpl in Heq.
        -- injection Heq as Hx _. subst c0. by rewrite is_at_at in Hc0.
        -- injection Heq as Hx Hs. subst x s. simpl in Hlocal.
           apply andb_true_iff in Hlocal as [_ Hlocal]. by exists local, c, rest.
Qed.

(** X16: what [register] takes for an email: at least one character
    other than [@], then [@], then a character other than [@]; what
    comes after is not looked at, so a second [@] further on or text
    without a dot passes. *)
Theorem email_matches_iff (s : string) :
  email_matches s = true
  <-> exists local c rest,
        s = local ++ String (Ascii.ascii_of_nat 64) (String c rest)
        /\ local ≠ "" /\ no_at local = true /\ is_at c = false.
Proof.
  destruct s as [|c0 s]; simpl.
  - split; [done|]. intros (local & c & rest & Heq & _). by destruct local.
  - rewrite andb_true_iff, negb_true_iff, local_then_at_iff. split.
    + intros (Hc0 & local & c & rest & -> & Hlocal & Hc).
      exists (String c0 local), c, rest. simpl. rewrite Hc0, Hlocal. done.
    + intros (local & c & rest & Heq & Hne & Hlocal & Hc).
      destruct local as [|x local]; [done|]. simpl in Heq. injection Heq as Hx Hs.
      subst x s. simpl in Hlocal. apply andb_true_iff in Hlocal as [Hx Hlocal].
      apply negb_true_iff in Hx. split; [done|]. by exists local, c, rest.
Qed.

Example email_matches_values :
  email_matches "ann@haul.example" = true /\ email_matches "a@b@c" = true
  /\ email_matches "a@b" = true /\ email_matches "@b" = false
  /\ email_matches "a@" = false /\ email_matches "a@@b" = false
  /\ email_matches "ab" = false /\ email_matches "" = false.
Proof. repeat split. Qed.

Lemma next_id_fresh {A} (seq : nat) (m : gmap nat A) : m !! next_id seq m = None.
Proof.
  destruct (m !! next_id seq m) as [x|] eqn:E; [exfalso | done].
  assert (next_id seq m ∈ (map_to_list m).*1) as Hin.
  { apply list_elem_of_fmap. exists (next_id seq m, x).
    split; [done | by apply elem_of_map_to_list]. }
  apply max_list_elem_of_le in Hin. unfold next_id in Hin. lia.
Qed.

Lemma select_user_by_email_None (email : string) (st : site) :
  select_user_by_email email st = None
  <-> forall i u, users st !! i = Some u -> u_email u ≠ email.
Proof.
  unfold select_user_by_email. rewrite head_None. split.
  - intros Hnil i u Hu He.
    apply (filter_nil_not_elem_of _ _ (i, u) Hnil He). by apply elem_of_map_to_list.
  - intros Hall.
    destruct (filter _ (map_to_list (users st))) as [|[i u] rest] eqn:E; [done|].
    assert ((i, u) ∈ filter (fun ku : nat * user_row => u_email ku.2 = email)
                              (map_to_list (users st))) as Hin
      by (rewrite E; left).
    apply list_elem_of_filter in Hin as [He Hin'].
    apply elem_of_map_to_list in Hin'. by destruct (Hall i u Hin').
Qed.

Lemma select_user_by_email_Some (email : string) (st : site) (i : nat) (u : user_row) :
  select_user_by_email email st = Some (i, u) ->
  users st !! i = Some u /\ u_email u = email.
Proof.
  unfold select_user_by_email. intros Hhead.
  assert ((i, u) ∈ filter (fun ku : nat * user_row => u_email ku.2 = email)
                            (map_to_list (users st))) as Hin.
  { destruct (filter _ (map_to_list (users st))) as [|x rest]; [done|].
    simpl in Hhead. injection Hhead as ->. left. }
  apply list_elem_of_filter in Hin as [He Hin'].
  apply elem_of_map_to_list in Hin'. done.
Qed.

(** With unique emails the query finds the one user of an email. *)
Lemma select_user_by_email_unique (st : site) (i : nat) (u : user_row) :
  emails_unique st ->
  users st !! i = Some u ->
  select_user_by_email (u_email u) st = Some (i, u).
Proof.
  intros Huniq Hu.
  destruct (select_user_by_email (u_email u) st) as [[j uj]|] eqn:Hsel.
  - apply select_user_by_email_Some in Hsel as [Hj He].
    assert (j = i) as -> by by apply (Huniq j i uj u).
    congruence.
  - rewrite select_user_by_email_None in Hsel. by destruct (Hsel i u Hu).
Qed.

(** X17: logging in, with at most one account per email: for the email
    of an account, [login] depends on the password check alone.  If it
    passes, the session gets this account's id and role; if not, the
    answer is "Invalid credentials" and the session stays as it was. *)
Theorem login_account (check_password_hash : string -> string -> bool)
    (st : site) (i : nat) (u : user_row) (pwd : string) (next : option string)
    (s : session) :
  emails_unique st ->
  users st !! i = Some u ->
  (check_password_hash (u_password_hash u) pwd = true ->
   (login check_password_hash POST (u_email u) pwd next s st).2
   = Session (Some i) (Some (u_role u)))
  /\ (check_password_hash (u_password_hash u) pwd = false ->
      login check_password_hash POST (u_email u) pwd next s st
      = (Render "Login" (Some "Invalid credentials"), s)).
Proof.
  intros Huniq Hu. unfold login.
  rewrite (select_user_by_email_unique st i u Huniq Hu).
  split; intros ->; done.
Qed.

Lemma emails_unique_site_two_bids : emails_unique site_two_bids.
Proof.
  intros i j ui uj Hi Hj He. unfold site_two_bids in Hi, Hj. cbn [users] in Hi, Hj.
  repeat (rewrite lookup_insert in Hi; case_decide; simplify_eq);
    try (apply lookup_singleton_Some in Hi as [<- <-]);
    repeat (rewrite lookup_insert in Hj; case_decide; simplify_eq);
    try (apply lookup_singleton_Some in Hj as [<- <-]);
    try done; try discriminate He.
Qed.

Lemma login_account_witness :
  (String.eqb "h-ann" "h-ann" = true ->
   (login String.eqb POST "ann@haul.example" "h-ann" None (Session None None)
          site_two_bids).2
   = Session (Some 20) (Some "trucker"))
  /\ (String.eqb "h-ann" "h-ann" = false ->
      login String.eqb POST "ann@haul.example" "h-ann" None (Session None None) site_two_bids
      = (Render "Login" (Some "Invalid credentials"), Session None None)).
Proof.
  apply (login_account String.eqb site_two_bids 20
           (UserRow "trucker" "Ann" "ann@haul.example" "h-ann" None None None)
           "h-ann" None (Session None None)).
  - exact emails_unique_site_two_bids.
  - reflexivity.
Defined.

Lemma select_new_user (f : register_form) (password_hash : string) (st : site) :
  (forall i u, users st !! i = Some u -> u_email u ≠ r_email f) ->
  select_user_by_email (r_email f)
    (Site (engine st) (loads_seq st) (loads_more st)
          (<[next_id (users_seq st) (users st)
               := UserRow (r_role f) (r_name f) (r_email f) password_hash
                    (r_company f) (r_phone f) (r_mc_number f)]> (users st))
          (next_id (users_seq st) (users st)) (saved_loads st) (saved_loads_seq st))
  = Some (next_id (users_seq st) (users st),
          UserRow (r_role f) (r_name f) (r_email f) password_hash
            (r_company f) (r_phone f) (r_mc_number f)).
Proof.
  intros Hfree.
  match goal with |- select_user_by_email ?e ?s = _ =>
    destruct (select_user_by_email e s) as [[j uj]|] eqn:Hsel end.
  - apply select_user_by_email_Some in Hsel as [Hj He]. simpl in Hj.
    destruct (decide (j = next_id (users_seq st) (users st))) as [->|Hne].
    + rewrite lookup_insert_eq in Hj. by injection Hj as <-.
    + rewrite lookup_insert_ne in Hj by done. by destruct (Hfree j uj Hj).
  - rewrite select_user_by_email_None in Hsel.
    exfalso. apply (Hsel (next_id (users_seq st) (users st))
                      (UserRow (r_role f) (r_name f) (r_email f) password_hash
                         (r_company f) (r_phone f) (r_mc_number f))); [|done].
    simpl. by rewrite lookup_insert_eq.
Qed.

(** [register] with an acceptable email, a password of six characters
    or more, a role the schema admits and an email nobody has. *)
Lemma register_ok (f : register_form) (password_hash : string) (st : site) :
  email_matches (r_email f) = true ->
  6 <= py_len (r_password f) ->
  r_role f ∈ role_names ->
  (forall i u, users st !! i = Some u -> u_email u ≠ r_email f) ->
  register POST f password_hash st
  = (RedirectTo ToLogin (Some "Registration successful. Please login."),
     Site (engine st) (loads_seq st) (loads_more st)
          (<[next_id (users_seq st) (users st)
               := UserRow (r_role f) (r_name f) (r_email f) password_hash
                    (r_company f) (r_phone f) (r_mc_number f)]> (users st))
          (next_id (users_seq st) (users st)) (saved_loads st) (saved_loads_seq st)).
Proof.
  intros Hemail Hlen Hrole Hfree. unfold register. rewrite Hemail. simpl.
  assert ((py_len (r_password f) <? 6)%nat = false) as -> by by apply Nat.ltb_ge.
  unfold insert_user. rewrite (bool_decide_eq_true_2 _ Hrole).
  apply select_user_by_email_None in Hfree. by rewrite Hfree.
Qed.

(** The length test of [register] counts characters: three characters
    outside ASCII take nine bytes and are still too short. *)
Example py_len_values :
  py_len "secret" = 6 /\ py_len "日本語" = 3 /\ String.length "日本語" = 9
  /\ register POST (RegisterForm "Eve" "eve@x.example" "shipper" "日本語" None None None)
        "h-eve" site_two_bids
     = (Render "Register" (Some "Password must be at least 6 chars"), site_two_bids).
Proof. repeat split. Qed.

(** X18: registering and logging in.  The role is the one the form
    sent, and the form may send any of shipper, trucker and admin.
    After a registration that passes the checks -- an acceptable email
    that nobody has, a password of six characters or more -- logging in
    with the
    same email and a password the hash accepts gives a session with the
    new account's id and that role; with the role admin this session is
    let through by [accept_bid] for every bid of every load. *)
Theorem register_then_login (check_password_hash : string -> string -> bool)
    (f : register_form) (password_hash : string) (next : option string)
    (s : session) (st : site) :
  email_matches (r_email f) = true ->
  6 <= py_len (r_password f) ->
  r_role f ∈ role_names ->
  (forall i u, users st !! i = Some u -> u_email u ≠ r_email f) ->
  check_password_hash password_hash (r_password f) = true ->
  exists st' id,
    register POST f password_hash st
    = (RedirectTo ToLogin (Some "Registration successful. Please login."), st')
    /\ users st !! id = None
    /\ (login check_password_hash POST (r_email f) (r_password f) next s st').2
       = Session (Some id) (Some (r_role f))
    /\ (r_role f = "admin" ->
        forall bid_id b l,
          bids (engine st') !! bid_id = Some b ->
          loads (engine st') !! b_load_id b = Some l ->
          (serve (accept_bid (Session (Some id) (Some (r_role f))) bid_id) (engine st')).1
          = RedirectViewLoad (b_load_id b) "Bid accepted and load assigned.").
Proof.
  intros Hemail Hlen Hrole Hfree Hcheck.
  eexists. exists (next_id (users_seq st) (users st)).
  split; [by apply register_ok|].
  split; [apply next_id_fresh|].
  split.
  - unfold login. rewrite (select_new_user f password_hash st Hfree). simpl.
    by rewrite Hcheck.
  - intros Hadmin bid_id b l Hb Hl. simpl in Hb, Hl.
    rewrite (serve_accept_bid _ _ bid_id b l); [done | done | done |].
    eexists. split; [reflexivity|]. right. simpl. by rewrite Hadmin.
Qed.

Lemma register_then_login_witness :
  exists st' id,
    register POST (RegisterForm "Eve" "eve@x.example" "admin" "secret" None None None)
             "secret" site_two_bids
    = (RedirectTo ToLogin (Some "Registration successful. Please login."), st')
    /\ users site_two_bids !! id = None
    /\ (login String.eqb POST "eve@x.example" "secret" None (Session None None) st').2
       = Session (Some id) (Some "admin")
    /\ ("admin" = "admin" ->
        forall bid_id b l,
          bids (engine st') !! bid_id = Some b ->
          loads (engine st') !! b_load_id b = Some l ->
          (serve (accept_bid (Session (Some id) (Some "admin")) bid_id) (engine st')).1
          = RedirectViewLoad (b_load_id b) "Bid accepted and load assigned.").
Proof.
  apply (register_then_login String.eqb
           (RegisterForm "Eve" "eve@x.example" "admin" "secret" None None None)
           "secret" None (Session None None) site_two_bids).
  - reflexivity.
  - simpl. lia.
  - compute_done.
  - intros i u Hu. unfold site_two_bids in Hu. cbn [users] in Hu. simpl.
    repeat (rewrite lookup_insert in Hu; case_decide; simplify_eq);
      try (apply lookup_singleton_Some in Hu as [<- <-]); try discriminate; done.
  - reflexivity.
Defined.

(** X19: the [IntegrityError] branch of [register].  With an acceptable
    email and a password of six characters or more, a role outside
    shipper, trucker and admin is
    answered "Email already registered." -- the [CHECK] on the role
    raises the same exception as a taken email -- and so is an email
    that an account already has; nothing is stored. *)
Theorem register_integrity_error (f : register_form) (password_hash : string) (st : site) :
  email_matches (r_email f) = true ->
  6 <= py_len (r_password f) ->
  r_role f ∉ role_names
  \/ (exists i u, users st !! i = Some u /\ u_email u = r_email f) ->
  register POST f password_hash st
  = (Render "Register" (Some "Email already registered."), st).
Proof.
  intros Hemail Hlen Hbad. unfold register. rewrite Hemail. simpl.
  assert ((py_len (r_password f) <? 6)%nat = false) as -> by by apply Nat.ltb_ge.
  unfold insert_user. destruct (bool_decide (r_role f ∈ role_names)) eqn:Hrole; [|done].
  apply bool_decide_eq_true in Hrole. destruct Hbad as [Hno | (i & u & Hu & He)]; [done|].
  destruct (select_user_by_email (r_email f) st) as [x|] eqn:Hsel; [done|].
  rewrite select_user_by_email_None in Hsel. by destruct (Hsel i u Hu).
Qed.

Lemma register_integrity_error_witness :
  register POST (RegisterForm "Eve" "eve@x.example" "dispatcher" "secret" None None None)
           "h-eve" site_two_bids
  = (Render "Register" (Some "Email already registered."), site_two_bids).
Proof.
  apply (register_integrity_error
           (RegisterForm "Eve" "eve@x.example" "dispatcher" "secret" None None None)
           "h-eve" site_two_bids).
  - reflexivity.
  - simpl. lia.
  - left. compute_done.
Defined.

(** [role_required] is [role_required_with] at the responses of the
    engine. *)
Lemma role_required_with_eq (roles : list string) (s : session) (f : nat -> Req response) :
  role_required roles s f = role_required_with roles s (mret RedirectLogin) (abort 403) f.
Proof. reflexivity. Qed.

(** ** Posting a load *)

(** The role test of [new_load] passes exactly for shippers and
    admins. *)
Lemma shipper_check_false_iff (s : session) :
  bool_decide (role s ∉ Some <$> ["shipper"; "admin"]) && bool_decide (role s ≠ Some "admin")
  = false
  <-> role s = Some "shipper" \/ role s = Some "admin".
Proof.
  rewrite andb_false_iff, !bool_decide_eq_false. split.
  - intros [H | H].
    + destruct (decide (role s = Some "shipper")) as [|Hn1]; [by left|].
      destruct (decide (role s = Some "admin")) as [|Hn2]; [by right|].
      exfalso. apply H. intros Hin.
      apply list_elem_of_fmap in Hin as (x & Hx & Hin).
      apply elem_of_cons in Hin as [-> | Hin]; [done|].
      apply list_elem_of_singleton in Hin as ->. done.
    + right. by destruct (decide (role s = Some "admin")).
  - intros [Hr | Hr].
    + left. intros Hno. apply Hno. rewrite Hr. apply list_elem_of_fmap.
      exists "shipper". split; [done | left].
    + right. auto.
Qed.

(** [new_load] for a logged-in shipper or admin, by POST, with the
    three required fields. *)
Lemma new_load_ok (s : session) (uid : nat) (f : load_form) (t pc dc : string) (st : site) :
  user_id s = Some uid ->
  role s = Some "shipper" \/ role s = Some "admin" ->
  f_title f = Some t -> f_pickup_city f = Some pc -> f_delivery_city f = Some dc ->
  new_load s POST f st
  = (RedirectTo ToLoads (Some "Load posted."),
     Site (Db (<[next_id (loads_seq st) (loads (engine st))
                  := LoadRow uid
                       (LoadInfo t pc dc (bind_real (sanitize_numeric (f_rate f) None))
                          (f_notes f))
                       "open" None]> (loads (engine st)))
              (bids (engine st)) (bids_seq (engine st)))
          (next_id (loads_seq st) (loads (engine st)))
          (<[next_id (loads_seq st) (loads (engine st))
               := LoadMore (f_pickup_state f) (f_pickup_date f)
                    (f_delivery_state f) (f_delivery_date f)
                    (bind_real (sanitize_numeric (f_weight f) None))
                    (f_equipment f)]> (loads_more st))
          (users st) (users_seq st) (saved_loads st) (saved_loads_seq st)).
Proof.
  intros Hu Hrole Ht Hpc Hdc. apply shipper_check_false_iff in Hrole.
  unfold new_load, role_required_with. rewrite Hu, Hrole.
  unfold insert_load. by rewrite Ht, Hpc, Hdc.
Qed.

Lemma new_load_cases (s : session) (method : http_method) (f : load_form) (st : site) :
  (new_load s method f st).2 = st
  \/ exists uid t pc dc,
       user_id s = Some uid /\ (role s = Some "shipper" \/ role s = Some "admin")
       /\ method = POST
       /\ f_title f = Some t /\ f_pickup_city f = Some pc /\ f_delivery_city f = Some dc.
Proof.
  unfold new_load, role_required_with.
  destruct (user_id s) as [uid|] eqn:Hu; [|by left].
  destruct (bool_decide (role s ∉ Some <$> ["shipper"; "admin"])
            && bool_decide (role s ≠ Some "admin")) eqn:Hrole; [by left|].
  apply shipper_check_false_iff in Hrole.
  destruct method; [by left|].
  unfold insert_load.
  destruct (f_title f) as [t|] eqn:Ht; [|by left].
  destruct (f_pickup_city f) as [pc|] eqn:Hpc; [|by left].
  destruct (f_delivery_city f) as [dc|] eqn:Hdc; [|by left].
  right. by exists uid, t, pc, dc.
Qed.




(** ** Saving a load *)

Lemma select_saved_nil (uid load_id : nat) (st : site) :
  select_saved uid load_id st = []
  <-> forall i r, saved_loads st !! i = Some r ->
                  ~ (sv_user_id r = uid /\ sv_load_id r = load_id).
Proof.
  unfold select_saved. split.
  - intros Hnil i r Hr Hp. apply fmap_nil_inv in Hnil.
    apply (filter_nil_not_elem_of _ _ (i, r) Hnil Hp). by apply elem_of_map_to_list.
  - intros Hall.
    destruct (filter _ (map_to_list (saved_loads st))) as [|[i r] rest] eqn:E; [done|].
    assert ((i, r) ∈ filter (fun kr : nat * saved_row =>
                                sv_user_id kr.2 = uid /\ sv_load_id kr.2 = load_id)
                              (map_to_list (saved_loads st))) as Hin
      by (rewrite E; left).
    apply list_elem_of_filter in Hin as [Hp Hin'].
    apply elem_of_map_to_list in Hin'. by destruct (Hall i r Hin').
Qed.

Lemma select_saved_cons (uid load_id : nat) (st : site) (i : nat) (ids : list nat) :
  select_saved uid load_id st = i :: ids ->
  saved_loads st !! i = Some (SavedRow uid load_id).
Proof.
  unfold select_saved. intros Hsel.
  destruct (filter _ (map_to_list (saved_loads st))) as [|[j r] rest] eqn:E; [done|].
  simpl in Hsel. injection Hsel as -> _.
  assert ((i, r) ∈ filter (fun kr : nat * saved_row =>
                              sv_user_id kr.2 = uid /\ sv_load_id kr.2 = load_id)
                            (map_to_list (saved_loads st))) as Hin
    by (rewrite E; left).
  apply list_elem_of_filter in Hin as [[H1 H2] Hin'].
  apply elem_of_map_to_list in Hin'. simpl in H1, H2. destruct r. simpl in *. congruence.
Qed.

(** What [INSERT OR IGNORE] does when the load id can be bound: the
    pair is in the table afterwards, the rows that were there stay, no
    pair is stored twice, the sequence value moves on, and only
    [saved_loads] and its sequence value are written. *)
Lemma insert_or_ignore_saved_bound (uid load_id : nat) (st : site) :
  sqlite_int load_id = true ->
  exists st',
    insert_or_ignore_saved uid load_id st = Some st'
    /\ engine st' = engine st /\ users st' = users st
    /\ (exists i, saved_loads st' !! i = Some (SavedRow uid load_id))
    /\ (forall i r, saved_loads st !! i = Some r -> saved_loads st' !! i = Some r)
    /\ (saved_unique st -> saved_unique st')
    /\ saved_loads_seq st < saved_loads_seq st'
    /\ (select_saved uid load_id st ≠ [] -> saved_loads st' = saved_loads st).
Proof.
  intros Hrng. unfold insert_or_ignore_saved. rewrite Hrng.
  pose proof (next_id_fresh (saved_loads_seq st) (saved_loads st)) as Hfresh.
  assert (saved_loads_seq st < next_id (saved_loads_seq st) (saved_loads st)) as Hseq
    by (unfold next_id; lia).
  eexists. split; [reflexivity|].
  destruct (select_saved uid load_id st) as [|i0 ids] eqn:Hsel; simpl.
  - rewrite select_saved_nil in Hsel.
    split; [done|]. split; [done|].
    split; [eexists; by rewrite lookup_insert_eq|].
    split.
    { intros i r Hi. rewrite lookup_insert_ne; [done|]. intros <-. congruence. }
    split; [|by split].
    intros Huniq i j ri rj Hi Hj Hu Hl. simpl in Hi, Hj.
    destruct (decide (i = next_id (saved_loads_seq st) (saved_loads st))) as [->|Hi'];
      destruct (decide (j = next_id (saved_loads_seq st) (saved_loads st))) as [->|Hj'];
      [done | | |].
    + rewrite lookup_insert_eq in Hi. injection Hi as <-.
      rewrite lookup_insert_ne in Hj by done. simpl in Hu, Hl.
      by destruct (Hsel j rj Hj).
    + rewrite lookup_insert_eq in Hj. injection Hj as <-.
      rewrite lookup_insert_ne in Hi by done. simpl in Hu, Hl.
      by destruct (Hsel i ri Hi).
    + rewrite lookup_insert_ne in Hi, Hj by done. by apply (Huniq i j ri rj).
  - split; [done|]. split; [done|].
    split; [exists i0; by apply (select_saved_cons uid load_id st i0 ids)|].
    split; [done|]. split; [|by split].
    intros Huniq i j ri rj Hi Hj. simpl in Hi, Hj. by apply (Huniq i j ri rj).
Qed.

Lemma insert_or_ignore_saved_unbound (uid load_id : nat) (st : site) :
  sqlite_int load_id = false -> insert_or_ignore_saved uid load_id st = None.
Proof. intros Hrng. unfold insert_or_ignore_saved. by rewrite Hrng. Qed.



(** The sequence value after saving the same load twice: one row, and
    the second request moved the value from 1 to 2. *)
Example save_load_twice_seq :
  map_to_list (saved_loads (save_load bidder_a 1 (save_load bidder_a 1 site_two_bids).2).2)
  = [(1, SavedRow 20 1)]
  /\ saved_loads_seq (save_load bidder_a 1 site_two_bids).2 = 1
  /\ saved_loads_seq (save_load bidder_a 1 (save_load bidder_a 1 site_two_bids).2).2 = 2.
Proof. vm_compute. done. Qed.

(** ** The whole site *)

Lemma step_load_is_Some (d : db) (r : request) (k : nat) :
  is_Some (loads d !! k) -> is_Some (loads (step d r) !! k).
Proof.
  intros [l Hl]. destruct (step_load_kept d r k l Hl) as (st & t & -> & _). done.
Qed.

(** A bid that is accepted after a request was accepted before, or was
    accepted by this request, in which case its load exists. *)
Lemma step_bid_accepted (d : db) (r : request) (i : nat) (b' : bid_row) :
  bids (step d r) !! i = Some b' ->
  b_status b' = "accepted" ->
  (bids d !! i = Some b') \/ is_Some (loads d !! b_load_id b').
Proof.
  intros Hi' Hacc.
  destruct r as [s load_id amount message | s bid_id | s bid_id | s load_id status].
  - destruct (bids d !! i) as [b|] eqn:Hi.
    + destruct (step_place_bid_cases d s load_id amount message)
        as [Heq | (uid & a & Hu & Hrole & -> & Hle & Hnan & Hsel & Hrng)];
        [left; rewrite Heq in Hi'; congruence|].
      unfold step in Hi'. simpl in Hi'. rewrite (serve_place_bid d s uid) in Hi' by done.
      simpl in Hi'. rewrite lookup_insert_ne in Hi'; [left; congruence|].
      intros <-. by rewrite next_bid_id_fresh in Hi.
    + destruct (step_bid_new d _ i b' Hi Hi') as (_ & Hp & _). congruence.
  - destruct (step_accept_bid_cases d s bid_id) as [Heq | (b0 & l0 & Hb & Hl & Hauth)];
      [left; rewrite Heq in Hi'; congruence|].
    unfold step in Hi'. simpl in Hi'.
    rewrite (serve_accept_bid d s bid_id b0 l0) in Hi' by done. simpl in Hi'.
    rewrite lookup_bids_after_accept in Hi'.
    destruct (bids d !! i) as [b|] eqn:Hi; simpl in Hi'; [|done]. injection Hi' as <-.
    destruct (decide (i = bid_id)) as [->|Hne].
    + right. simpl. assert (b = b0) as -> by congruence. by rewrite Hl.
    + destruct (decide (b_load_id b = b_load_id b0)); [done | left; congruence].
  - destruct (step_reject_bid_cases d s bid_id) as [Heq | (b0 & l0 & Hb & Hl & Hauth)];
      [left; rewrite Heq in Hi'; congruence|].
    unfold step in Hi'. simpl in Hi'.
    rewrite (serve_reject_bid d s bid_id b0 l0) in Hi' by done. simpl in Hi'.
    destruct (decide (i = bid_id)) as [->|Hne].
    + rewrite lookup_insert_eq in Hi'. by injection Hi' as <-.
    + rewrite lookup_insert_ne in Hi' by done. left; congruence.
  - destruct (step_update_status_cases d s load_id status)
      as [Heq | (l0 & Hl & Hauth & Hst)]; [left; rewrite Heq in Hi'; congruence|].
    unfold step in Hi'. simpl in Hi'.
    rewrite (serve_update_status d s load_id status l0) in Hi' by done. left; exact Hi'.
Qed.

Lemma accepted_has_load_step (d : db) (r : request) :
  accepted_has_load d -> accepted_has_load (step d r).
Proof.
  intros H i b' Hi' Hacc. apply step_load_is_Some.
  destruct (step_bid_accepted d r i b' Hi' Hacc) as [Hi | Hl]; [|done].
  by apply (H i b').
Qed.

Lemma site_inv_step (st : site) (r : site_request) :
  site_inv st -> site_inv (site_step st r).
Proof.
  intros Hinv. pose proof Hinv as (Hp & Ha & Hal & He & Hs).
  destruct r as [r | s method f | s load_id | method f password_hash]; simpl.
  - split; [by apply pending_inv_step|]. split; [by apply accepted_inv_step|].
    split; [by apply accepted_has_load_step|]. by split.
  - destruct (new_load_cases s method f st)
      as [-> | (uid & t & pc & dc & Hu & Hrole & -> & Ht & Hpc & Hdc)];
      [exact Hinv|].
    rewrite (new_load_ok s uid f t pc dc) by done. simpl.
    pose proof (next_id_fresh (loads_seq st) (loads (engine st))) as Hfresh.
    split; [|split; [|split; [|split]]]; simpl.
    + intros i j bi bj Hi Hj. simpl in Hi, Hj. by apply (Hp i j bi bj).
    + destruct Ha as [Hone Htr]. split.
      * intros i j bi bj Hi Hj. simpl in Hi, Hj. by apply (Hone i j bi bj).
      * intros i bi l Hi Hacc Hl. simpl in Hi, Hl.
        rewrite lookup_insert_ne in Hl; [by apply (Htr i bi l)|].
        intros Heq. destruct (Hal i bi Hi Hacc) as [l0 Hl0]. congruence.
    + intros i bi Hi Hacc. simpl in Hi. simpl.
      destruct (Hal i bi Hi Hacc) as [l0 Hl0].
      rewrite lookup_insert_ne; [by exists l0|]. congruence.
    + exact He.
    + exact Hs.
  - unfold save_load, role_required_with.
    destruct (user_id s) as [uid|]; [|exact Hinv].
    destruct (bool_decide (role s ∉ Some <$> ["trucker"])
              && bool_decide (role s ≠ Some "admin")); [exact Hinv|]. simpl.
    destruct (sqlite_int load_id) eqn:Hrng;
      [|by rewrite (insert_or_ignore_saved_unbound uid load_id st Hrng)].
    destruct (insert_or_ignore_saved_bound uid load_id st Hrng)
      as (st' & -> & Hen & Hus & _ & _ & Huniq & _). simpl.
    unfold site_inv. rewrite Hen.
    split; [done|]. split; [done|]. split; [done|]. split; [|by apply Huniq].
    intros i j ui uj Hi Hj. rewrite Hus in Hi, Hj. by apply (He i j ui uj).
  - unfold register. destruct method; [exact Hinv|].
    destruct (negb (email_matches (r_email f))); [exact Hinv|].
    destruct (py_len (r_password f) <? 6)%nat; [exact Hinv|].
    unfold insert_user. destruct (bool_decide (r_role f ∈ role_names)); [|exact Hinv].
    destruct (select_user_by_email (r_email f) st) as [x|] eqn:Hsel; [exact Hinv|].
    rewrite select_user_by_email_None in Hsel. simpl.
    pose proof (next_id_fresh (users_seq st) (users st)) as Hfresh.
    split; [done|]. split; [done|]. split; [done|]. split; [|done].
    intros i j ui uj Hi Hj Heq. simpl in Hi, Hj.
    destruct (decide (i = next_id (users_seq st) (users st))) as [->|Hi'];
      destruct (decide (j = next_id (users_seq st) (users st))) as [->|Hj']; [done | | |].
    + rewrite lookup_insert_eq in Hi. injection Hi as <-.
      rewrite lookup_insert_ne in Hj by done. simpl in Heq.
      by destruct (Hsel j uj Hj).
    + rewrite lookup_insert_eq in Hj. injection Hj as <-.
      rewrite lookup_insert_ne in Hi by done. simpl in Heq.
      by destruct (Hsel i ui Hi).
    + rewrite lookup_insert_ne in Hi, Hj by done. by apply (He i j ui uj).
Qed.

(** X23: the invariants of the stored state, over every kind of
    request -- bidding, resolving bids, changing statuses, posting
    loads, saving loads and registering.  If each load and trucker have
    at most one pending bid, each load has at most one accepted bid
    whose trucker is the load's, every accepted bid belongs to a load
    that exists, no two accounts share an email and no saved pair is
    stored twice, then all of this holds after any sequence of
    requests. *)
Theorem site_inv_run (st : site) (rs : list site_request) :
  site_inv st -> site_inv (site_run st rs).
Proof.
  revert st. induction rs as [|r rs IH]; intros st Hinv; [done|].
  simpl. apply IH. by apply site_inv_step.
Qed.

Lemma site_inv_run_witness :
  site_inv (site_run (Site db_open 1 ∅ ∅ 0 ∅ 0)
              [RegisterUser POST (RegisterForm "Ann" "ann@haul.example" "trucker" "secret"
                                None None None) "h-ann";
               Engine (PlaceBid bidder_a 1 (Some amount_500) None);
               SaveLoad bidder_a 1;
               NewLoad poster POST
                 (LoadForm (Some "Lumber") (Some "Erie") None None (Some "Akron") None None
                    None None None None);
               Engine (AcceptBid poster 1)]).
Proof.
  apply (site_inv_run (Site db_open 1 ∅ ∅ 0 ∅ 0)).
  unfold site_inv, pending_inv, accepted_inv, accepted_has_load, emails_unique,
    saved_unique. simpl.
  split; [|split; [split|split; [|split]]].
  - intros i j bi bj Hi. rewrite lookup_empty in Hi. discriminate Hi.
  - intros i j bi bj Hi. rewrite lookup_empty in Hi. discriminate Hi.
  - intros i bi l Hi. rewrite lookup_empty in Hi. discriminate Hi.
  - intros i b Hi. rewrite lookup_empty in Hi. discriminate Hi.
  - intros i j ui uj Hi. rewrite lookup_empty in Hi. discriminate Hi.
  - intros i j ri rj Hi. rewrite lookup_empty in Hi. discriminate Hi.
Defined.

Lemma site_step_user_kept (st : site) (r : site_request) (i : nat) (u : user_row) :
  users st !! i = Some u -> users (site_step st r) !! i = Some u.
Proof.
  intros Hu. destruct r as [r | s method f | s load_id | method f password_hash]; simpl.
  - done.
  - destruct (new_load_cases s method f st)
      as [-> | (uid & t & pc & dc & Hs & Hrole & -> & Ht & Hpc & Hdc)]; [done|].
    by rewrite (new_load_ok s uid f t pc dc) by done.
  - unfold save_load, role_required_with.
    destruct (user_id s) as [uid|]; [|done].
    destruct (bool_decide (role s ∉ Some <$> ["trucker"])
              && bool_decide (role s ≠ Some "admin")); [done|]. simpl.
    destruct (sqlite_int load_id) eqn:Hrng;
      [|by rewrite (insert_or_ignore_saved_unbound uid load_id st Hrng)].
    destruct (insert_or_ignore_saved_bound uid load_id st Hrng)
      as (st' & -> & _ & Hus & _). simpl. by rewrite Hus.
  - unfold register. destruct method; [done|].
    destruct (negb (email_matches (r_email f))); [done|].
    destruct (py_len (r_password f) <? 6)%nat; [done|].
    unfold insert_user. destruct (bool_decide (r_role f ∈ role_names)); [|done].
    destruct (select_user_by_email (r_email f) st) as [x|]; [done|]. simpl.
    rewrite lookup_insert_ne; [done|].
    intros <-. by rewrite next_id_fresh in Hu.
Qed.

(** X24: an account, once stored, is never changed or deleted by any of
    these requests: its role, name, email and password hash stay as
    registered, and a later registration gets an id of its own. *)
Theorem accounts_kept (st : site) (rs : list site_request) (i : nat) (u : user_row) :
  users st !! i = Some u -> users (site_run st rs) !! i = Some u.
Proof.
  revert st. induction rs as [|r rs IH]; intros st Hu; [done|].
  simpl. apply IH. by apply site_step_user_kept.
Qed.

Lemma accounts_kept_witness :
  users (site_run site_two_bids
           [RegisterUser POST (RegisterForm "Eve" "eve@x.example" "admin" "secret"
                             None None None) "h-eve";
            Engine (AcceptBid poster 1);
            SaveLoad bidder_b 1]) !! 20
  = Some (UserRow "trucker" "Ann" "ann@haul.example" "h-ann" None None None).
Proof.
  apply (accounts_kept site_two_bids).
  reflexivity.
Defined.
